(** * ChunksToHermesBytecodePlugin

    A shallow embedding of
    [packages/repack/src/webpack/plugins/ChunksToHermesBytecodePlugin/ChunksToHermesBytecodePlugin.ts]
    and the properties of its path resolution and of its per-asset pipeline.

    The plugin is a class with one method, [apply], which either returns
    early, throws, or taps the [afterEmit] hook with an asynchronous callback
    that runs one pipeline per matching asset under [Promise.all].

    - Strings are [String.string]; optional configuration fields are
      [option string], with JavaScript truthiness written out ([truthy]).
    - The functions of Node's [path] module, webpack's
      [ModuleFilenameHelpers.matchObject] and [getHermesCLIPath] are imported
      by the plugin; they are taken as the fields of an interface
      ([PathLib], [Host]).
    - Asynchronous code is a tree of awaited operations ([Prog]); every
      awaited operation is a point where another pipeline may run.
    - The file system is a finite map from paths to file contents. *)

From Stdlib Require Import Ascii.
From stdpp Require Import base strings gmap list.

Open Scope string_scope.
Open Scope list_scope.

(** ** Data model *)

(** [type Rule = string | RegExp] of the plugin's [test], [include] and
    [exclude] options; a regular expression is kept by its source text. *)
Inductive Rule : Type :=
| RuleString (s : string)
| RuleRegExp (source : string).

(** [ChunksToHermesBytecodePluginConfig]: the shared options picked from
    [WebpackEnvOptions] and the plugin's own options. *)
Record ChunksToHermesBytecodePluginConfig : Type := mkConfig {
  enabled : bool;
  platform : string;
  bundleFilename : option string;
  sourceMapFilename : option string;
  assetsPath : option string;
  reactNativePath : option string;
  hermesCLIPath : option string;
  test : list Rule;
  include : list Rule;
  exclude : list Rule
}.

(** An emitted asset, as returned by [compilation.getAssets()]. *)
Record Asset : Type := mkAsset { name : string }.

(** The part of webpack's [Compilation] the callback uses. *)
Record Compilation : Type := mkCompilation {
  getAssets : list Asset;
  getPath : string -> string
}.

(** JavaScript truthiness of [string | undefined]: [undefined] and the empty
    string are falsy. *)
Definition truthy (s : option string) : bool :=
  match s with
  | None => false
  | Some EmptyString => false
  | Some (String _ _) => true
  end.

(** [a || b] for [a : string | undefined] and [b : string]. *)
Definition or_else (a : option string) (b : string) : string :=
  match a with
  | Some (String c s) => String c s
  | _ => b
  end.

(** ** Imported functions *)

(** Node's [path] module, as far as the plugin uses it. *)
Class PathLib : Type := {
  path_join : string -> string -> string;
  path_dirname : string -> string;
  path_basename : string -> string
}.

(** What the plugin imports from webpack and from [./utils] without touching
    the file system. *)
Class Host : Type := {
  matchObject : ChunksToHermesBytecodePluginConfig -> string -> bool;
  getHermesCLIPath : string -> string
}.

(** ** Path resolution *)

Section Paths.
Context `{PathLib}.

(** Directory where the bundle is saved. *)
Definition bundleOutputDir (bundleFilename : string) : string :=
  path_dirname bundleFilename.

(** Directory where assets are saved: [assetsPath || bundleOutputDir]. *)
Definition assetsOutputDir (assetsPath : option string)
    (bundleFilename : string) : string :=
  or_else assetsPath (bundleOutputDir bundleFilename).

(** Directory where source maps are saved. *)
Definition sourcemapOutputDir (sourceMapFilename : option string)
    (bundleFilename : string) : string :=
  match sourceMapFilename with
  | Some (String c s) => path_dirname (String c s)
  | _ => bundleOutputDir bundleFilename
  end.

(** The name the code compares an asset's name with. *)
Definition mainBundleName : string := "index.bundle".

(** [asset.name === 'index.bundle'] *)
Definition isMainBundle (asset : Asset) : bool :=
  String.eqb (name asset) mainBundleName.

(** The constants the callback closes over, once [apply] has passed its
    guards: [bundleFilename] is then a non-empty string. *)
Record Context_ : Type := mkContext {
  ctx_platform : string;
  ctx_bundleFilename : string;
  ctx_sourceMapFilename : option string;
  ctx_assetsPath : option string;
  ctx_reactNativePath : string;
  ctx_hermesCLIPath : string
}.

Definition ctx_bundleOutputDir (ctx : Context_) : string :=
  bundleOutputDir (ctx_bundleFilename ctx).

Definition ctx_assetsOutputDir (ctx : Context_) : string :=
  assetsOutputDir (ctx_assetsPath ctx) (ctx_bundleFilename ctx).

Definition ctx_sourcemapOutputDir (ctx : Context_) : string :=
  sourcemapOutputDir (ctx_sourceMapFilename ctx) (ctx_bundleFilename ctx).

(** [platform === 'ios'] *)
Definition isIOS (ctx : Context_) : bool :=
  String.eqb (ctx_platform ctx) "ios".

Definition bundleOutputPath (ctx : Context_) (compilation : Compilation)
    (asset : Asset) : string :=
  let assetPath := getPath compilation (name asset) in
  if isMainBundle asset
  then ctx_bundleFilename ctx
  else path_join
         (if isIOS ctx then ctx_assetsOutputDir ctx
          else ctx_bundleOutputDir ctx)
         assetPath.

Definition sourcemapOutputPath (ctx : Context_) (compilation : Compilation)
    (asset : Asset) : string :=
  let bundleOutputPath := bundleOutputPath ctx compilation asset in
  if negb (isMainBundle asset) && isIOS ctx
  then bundleOutputPath +:+ ".map"
  else path_join (ctx_sourcemapOutputDir ctx)
         (path_basename bundleOutputPath +:+ ".map").

Definition packagerMapPath (ctx : Context_) (compilation : Compilation)
    (asset : Asset) : string :=
  let bundleOutputPath := bundleOutputPath ctx compilation asset in
  path_join (ctx_sourcemapOutputDir ctx)
    (path_basename bundleOutputPath +:+ ".packager.map").

End Paths.

(** ** Awaited operations *)

(** [logger.debug], [logger.info], [logger.error] *)
Inductive Level : Type := debug | info | error.

(** What a rejected promise or a [throw] carries. *)
Inductive Error : Type :=
| JsError (message : string)
| ENOENT (path : string)
| CompilationError (filePath : string)
| MapFormatError.

(** Argument and result objects of the two functions of [./utils]. *)
Module TransformArgs.
Record t : Type := mk {
  hermesCLIPath : string;
  useSourceMaps : bool;
  filePath : string
}.
End TransformArgs.

Module HermesAsset.
Record t : Type := mk {
  bundle : string;
  sourceMap : option string
}.
End HermesAsset.

Module ComposeArgs.
Record t : Type := mk {
  reactNativePath : string;
  packagerMapPath : string;
  compilerMapPath : option string;
  outputFile : string
}.
End ComposeArgs.

(** The operations the plugin performs on its surroundings, indexed by the
    type of their result.  The calls of the logger are synchronous in the
    source; they are kept as operations of their own so that they appear, in
    order, among the operations performed, which only adds schedules to
    those of the source. *)
Inductive Op : Type -> Type :=
| Log (level : Level) (message : string) : Op unit
| FsAccess (path : string) : Op unit
| FsRename (oldPath newPath : string) : Op unit
| TransformBundleToHermesBytecode (args : TransformArgs.t) : Op HermesAsset.t
| ComposeSourceMaps (args : ComposeArgs.t) : Op unit.

(** A computation: it has returned, it has thrown, or it waits for an
    operation, whose failure or result the continuation receives (so that
    [try]/[catch] can be written). *)
Inductive Prog (A : Type) : Type :=
| Ret (a : A)
| Throw (e : Error)
| Await {R : Type} (op : Op R) (k : Error + R -> Prog A).

Arguments Ret {A} a.
Arguments Throw {A} e.
Arguments Await {A R} op k.

Fixpoint bind {A B : Type} (m : Prog A) (f : A -> Prog B) : Prog B :=
  match m with
  | Ret a => f a
  | Throw e => Throw e
  | Await op k => Await op (fun r => bind (k r) f)
  end.

(** [await op]: a failure of [op] rejects the surrounding [async] function. *)
Definition await {R : Type} (op : Op R) : Prog R :=
  Await op (fun r => match r with inl e => Throw e | inr v => Ret v end).

Notation "'let*' x := m 'in' k" := (bind m (fun x => k))
  (at level 10, x name, m at level 100, k at level 200, only parsing).
Notation "'do*' m 'in' k" := (bind m (fun _ => k))
  (at level 10, m at level 100, k at level 200, only parsing).

Definition logger_debug (message : string) : Prog unit := await (Log debug message).
Definition logger_info (message : string) : Prog unit := await (Log info message).
Definition logger_error (message : string) : Prog unit := await (Log error message).

(** Checks if a file exists: [fs.access] in a [try], [false] in the [catch]. *)
Definition fileExists (path : string) : Prog bool :=
  Await (FsAccess path)
    (fun r => match r with inr _ => Ret true | inl _e => Ret false end).

(** ** The plugin *)

Section Plugin.
Context `{PathLib} `{Host}.

(** The body of the [async (asset) => ...] callback. *)
Definition processAsset (ctx : Context_) (compilation : Compilation)
    (asset : Asset) : Prog unit :=
  do* logger_debug ("Starting hermes compilation for asset: " +:+ name asset) in
  let assetPath := getPath compilation (name asset) in
  let bundleOutputPath := bundleOutputPath ctx compilation asset in
  let* bundleExists := fileExists bundleOutputPath in
  if negb bundleExists then
    do* logger_error ("Bundle does not exist: " +:+ bundleOutputPath) in
    Ret tt
  else
    let sourcemapOutputPath := sourcemapOutputPath ctx compilation asset in
    let packagerMapPath := packagerMapPath ctx compilation asset in
    let* useSourceMaps := fileExists sourcemapOutputPath in
    do* (if useSourceMaps
         then await (FsRename sourcemapOutputPath packagerMapPath)
         else logger_info
                "No source maps found, did you forget to specify '--sourcemap-output'?") in
    let* hermesAsset :=
      await (TransformBundleToHermesBytecode
               (TransformArgs.mk (ctx_hermesCLIPath ctx) useSourceMaps
                  bundleOutputPath)) in
    do* logger_info ("Asset transformed: " +:+ assetPath) in
    if useSourceMaps
    then await (ComposeSourceMaps
                  (ComposeArgs.mk (ctx_reactNativePath ctx) packagerMapPath
                     (HermesAsset.sourceMap hermesAsset) sourcemapOutputPath))
    else Ret tt.

(** What [afterEmit.tapPromise] receives: from the compilation, the
    promises handed to [Promise.all], one per matching asset. *)
Definition Hook : Type := Compilation -> list (Prog unit).

Definition pluginName : string := "ChunksToHermesBytecodePlugin".

Definition shouldUseHermesByteCode
    (config : ChunksToHermesBytecodePluginConfig) (filename : string) : bool :=
  matchObject config filename.

Definition afterEmit (config : ChunksToHermesBytecodePluginConfig)
    (ctx : Context_) : Hook :=
  fun compilation =>
    map (processAsset ctx compilation)
      (List.filter (fun asset => shouldUseHermesByteCode config (name asset))
         (getAssets compilation)).

(** [apply(compiler)]: the value returned is the list of callbacks the call
    has tapped on [compiler.hooks.afterEmit]. *)
Definition apply (config : ChunksToHermesBytecodePluginConfig)
    : Prog (list (string * Hook)) :=
  if negb (enabled config) then
    do* logger_info "Skipping hermes compilation" in
    Ret []
  else
    let reactNativePath :=
      default "./node_modules/react-native" (reactNativePath config) in
    match bundleFilename config with
    | Some (String c s) =>
        let bundleFilename := String c s in
        let hermesCLIPath :=
          or_else (hermesCLIPath config) (getHermesCLIPath reactNativePath) in
        let ctx := mkContext (platform config) bundleFilename
                     (sourceMapFilename config) (assetsPath config)
                     reactNativePath hermesCLIPath in
        Ret [(pluginName, afterEmit config ctx)]
    | _ =>
        do* logger_error
          "Hermes compilation is only supported for the 'webpack-bundle' command. You can disable this plugin via the 'enabled' option." in
        do* logger_info
          "Did you forget to provide an explicit '--bundle-output <path>' option to 'webpack-bundle'?" in
        Throw (JsError
          "Hermes compilation is only supported for bundle builds with --bundle-output")
    end.

End Plugin.

(** ** The file system *)

(** Paths to file contents. *)
Abbreviation Files := (gmap string string).

(** The two external programs the functions of [./utils] start: the Hermes
    compiler (from the path of its binary and a bundle's text to the bytecode
    and the compiler's source map, [None] on a non-zero exit) and React
    Native's script composing two source maps; and where the compiler writes
    its map for a bundle. *)
Class Tools : Type := {
  hermesc : string -> string -> option (string * string);
  compilerMapPathOf : string -> string;
  composeScript : string -> string -> option string
}.

Section Semantics.
Context `{Tools}.

(** Modelled from the spec: [transformBundleToHermesBytecode] of [./utils],
    which is not among the sources.  It runs the compiler on the bundle at
    [filePath]; on success the bytecode replaces the bundle in place and,
    when a map was requested, the compiler's map is written and its path
    returned; a failing compiler is a [CompilationError] and leaves the
    files as they were. *)
Definition transformBundleToHermesBytecode (args : TransformArgs.t)
    (fs : Files) : Files * (Error + HermesAsset.t) :=
  let filePath := TransformArgs.filePath args in
  match fs !! filePath with
  | None => (fs, inl (CompilationError filePath))
  | Some text =>
      match hermesc (TransformArgs.hermesCLIPath args) text with
      | None => (fs, inl (CompilationError filePath))
      | Some (bytecode, compilerMap) =>
          let fs1 := <[filePath := bytecode]> fs in
          if TransformArgs.useSourceMaps args
          then (<[compilerMapPathOf filePath := compilerMap]> fs1,
                inr (HermesAsset.mk filePath
                       (Some (compilerMapPathOf filePath))))
          else (fs1, inr (HermesAsset.mk filePath None))
      end
  end.

(** Modelled from the spec: [composeSourceMaps] of [./utils], which is not
    among the sources.  It composes the packager map with the compiler map,
    writes the result to [outputFile] over any file there, and consumes the
    packager map, which does not remain on disk after a successful
    composition; an input that is missing or not a source map is a
    [MapFormatError] and leaves the files as they were. *)
Definition composeSourceMaps (args : ComposeArgs.t) (fs : Files)
    : Files * (Error + unit) :=
  match ComposeArgs.compilerMapPath args with
  | None => (fs, inl MapFormatError)
  | Some compilerMapPath =>
      match fs !! ComposeArgs.packagerMapPath args, fs !! compilerMapPath with
      | Some packagerMap, Some compilerMap =>
          match composeScript packagerMap compilerMap with
          | Some composed =>
              (delete (ComposeArgs.packagerMapPath args)
                 (<[ComposeArgs.outputFile args := composed]> fs),
               inr tt)
          | None => (fs, inl MapFormatError)
          end
      | _, _ => (fs, inl MapFormatError)
      end
  end.

(** What an operation does to the files and what it answers.  [fs.access]
    succeeds on an existing path; [fs.rename] moves a file over whatever is
    at the new path and fails when the old path has no file. *)
Definition handle {R : Type} (op : Op R) (fs : Files) : Files * (Error + R) :=
  match op in Op R return Files * (Error + R) with
  | Log _ _ => (fs, inr tt)
  | FsAccess path =>
      (fs, match fs !! path with
           | Some _ => inr tt
           | None => inl (ENOENT path)
           end)
  | FsRename oldPath newPath =>
      match fs !! oldPath with
      | Some content => (<[newPath := content]> (delete oldPath fs), inr tt)
      | None => (fs, inl (ENOENT oldPath))
      end
  | TransformBundleToHermesBytecode args =>
      transformBundleToHermesBytecode args fs
  | ComposeSourceMaps args => composeSourceMaps args fs
  end.

(** An operation that was performed, with its answer. *)
Inductive Event : Type :=
| Ev {R : Type} (op : Op R) (r : Error + R).

(** How a promise has settled. *)
Inductive Settled (A : Type) : Type :=
| Fulfilled (a : A)
| Rejected (e : Error).
#[global] Arguments Fulfilled {A} a.
#[global] Arguments Rejected {A} e.

(** One computation run alone to its end. *)
Fixpoint run {A : Type} (p : Prog A) (fs : Files)
    : Files * list Event * Settled A :=
  match p with
  | Ret a => (fs, [], Fulfilled a)
  | Throw e => (fs, [], Rejected e)
  | Await op k =>
      let '(fs1, r) := handle op fs in
      let '(fs2, tr, out) := run (k r) fs1 in
      (fs2, Ev op r :: tr, out)
  end.

(** The first [n] operations of a computation run alone. *)
Fixpoint runN {A : Type} (n : nat) (p : Prog A) (fs : Files)
    : Files * list Event * Prog A :=
  match n, p with
  | S n', Await op k =>
      let '(fs1, r) := handle op fs in
      let '(fs2, tr, p') := runN n' (k r) fs1 in
      (fs2, Ev op r :: tr, p')
  | _, _ => (fs, [], p)
  end.

(** *** [Promise.all]

    The promises of a pool advance one awaited operation at a time, in any
    order: a schedule names, step by step, the promise that advances.  A
    step of a settled promise, or of none, does nothing. *)
Record Pool : Type := mkPool {
  pool_files : Files;
  pool_tasks : list (Prog unit);
  pool_trace : list (nat * Event)
}.

Definition stepAt (st : Pool) (i : nat) : Pool :=
  match pool_tasks st !! i with
  | Some (Await op k) =>
      let '(fs1, r) := handle op (pool_files st) in
      mkPool fs1 (<[i := k r]> (pool_tasks st))
        (pool_trace st ++ [(i, Ev op r)])
  | _ => st
  end.

Definition runPool (schedule : list nat) (st : Pool) : Pool :=
  foldl stepAt st schedule.

(** The pool with the promise at index [i] replaced, and the pool with
    earlier events put before its trace. *)
Definition setTask (i : nat) (p : Prog unit) (st : Pool) : Pool :=
  mkPool (pool_files st) (<[i := p]> (pool_tasks st)) (pool_trace st).

Definition withTrace (tr : list (nat * Event)) (st : Pool) : Pool :=
  mkPool (pool_files st) (pool_tasks st) (tr ++ pool_trace st).

Definition settled {A : Type} (p : Prog A) : bool :=
  match p with
  | Await _ _ => false
  | _ => true
  end.

Definition rejected {A : Type} (p : Prog A) : bool :=
  match p with
  | Throw _ => true
  | _ => false
  end.

End Semantics.

(** ** The bundler's side of the hook *)

Section Build.
Context `{PathLib} `{Host} `{Tools}.

(** What a build does with the plugin: it calls [apply] once; when [apply]
    throws, the build stops there; otherwise, after the assets are emitted,
    the tapped callbacks receive the compilation and their promises run
    under the given schedule. *)
Record Build : Type := mkBuild {
  build_applyTrace : list Event;
  build_result : Error + Pool
}.

Definition webpackBuild (schedule : list nat)
    (config : ChunksToHermesBytecodePluginConfig)
    (compilation : Compilation) (fs : Files) : Build :=
  match run (apply config) fs with
  | (_, tr, Rejected e) => mkBuild tr (inl e)
  | (fs1, tr, Fulfilled taps) =>
      let tasks := flat_map (fun tap => snd tap compilation) taps in
      mkBuild tr (inr (runPool schedule (mkPool fs1 tasks [])))
  end.

End Build.

(** ** Executions in any surroundings *)

(** [path p tr q]: starting as [p], a computation can perform the operations
    of [tr], with the answers recorded there, and then stand as [q].  The
    answers are arbitrary: whatever the file system, the tools and the other
    promises do, what one promise performs is such a path. *)
Fixpoint path {A : Type} (p : Prog A) (tr : list Event) (q : Prog A) : Prop :=
  (tr = [] /\ q = p) \/
  match p with
  | Await op k => exists r tr', tr = Ev op r :: tr' /\ path (k r) tr' q
  | _ => False
  end.

(** A settled promise as the computation it ends as. *)
Definition asProg {A : Type} (out : Settled A) : Prog A :=
  match out with
  | Fulfilled a => Ret a
  | Rejected e => Throw e
  end.

(** The operations the promise at index [i] has performed, in order. *)
Definition eventsOf (i : nat) (tr : list (nat * Event)) : list Event :=
  map snd (List.filter (fun e => Nat.eqb (fst e) i) tr).

Definition isFsAccess (e : Event) : bool :=
  match e with
  | Ev (FsAccess _) _ => true
  | _ => false
  end.

Definition isLog (e : Event) : bool :=
  match e with
  | Ev (Log _ _) _ => true
  | _ => false
  end.

Definition isRename (e : Event) : bool :=
  match e with
  | Ev (FsRename _ _) _ => true
  | _ => false
  end.

Definition isTransform (e : Event) : bool :=
  match e with
  | Ev (TransformBundleToHermesBytecode _) _ => true
  | _ => false
  end.

Definition isCompose (e : Event) : bool :=
  match e with
  | Ev (ComposeSourceMaps _) _ => true
  | _ => false
  end.

(** The error an operation was answered with, if it failed. *)
Definition failure (e : Event) : option Error :=
  match e with
  | Ev _ (inl err) => Some err
  | Ev _ (inr _) => None
  end.

Definition failed (e : Event) : bool :=
  match e with
  | Ev _ (inl _) => true
  | Ev _ (inr _) => false
  end.

(** No log entry of the trace has failed. *)
Definition logsSucceed (tr : list Event) : bool :=
  forallb (fun e => negb (isLog e && failed e)) tr.

Section OwnOperations.
Context `{PathLib}.

(** An operation of an asset's own: a log entry, or an operation on the
    asset's resolved paths with the context's tools. *)
Definition ownEvent (ctx : Context_) (compilation : Compilation)
    (asset : Asset) (e : Event) : Prop :=
  let bundlePath := bundleOutputPath ctx compilation asset in
  let mapPath := sourcemapOutputPath ctx compilation asset in
  let packagerPath := packagerMapPath ctx compilation asset in
  match e with
  | Ev op _ =>
      match op with
      | Log _ _ => True
      | FsAccess path => path = bundlePath \/ path = mapPath
      | FsRename oldPath newPath => oldPath = mapPath /\ newPath = packagerPath
      | TransformBundleToHermesBytecode args =>
          TransformArgs.filePath args = bundlePath /\
          TransformArgs.hermesCLIPath args = ctx_hermesCLIPath ctx
      | ComposeSourceMaps args =>
          ComposeArgs.packagerMapPath args = packagerPath /\
          ComposeArgs.outputFile args = mapPath /\
          ComposeArgs.reactNativePath args = ctx_reactNativePath ctx
      end
  end.

End OwnOperations.

Section ApplyContext.
Context `{PathLib} `{Host}.

(** The constants [apply] has computed when it taps the callback, for a
    configuration whose bundle output path is [bundleFilename]:
    [reactNativePath] with its default, and the Hermes binary, configured or
    looked up under [reactNativePath]. *)
Definition applyContext (config : ChunksToHermesBytecodePluginConfig)
    (bundleFilename : string) : Context_ :=
  let reactNativePath :=
    match reactNativePath config with
    | Some p => p
    | None => "./node_modules/react-native"
    end in
  mkContext (platform config) bundleFilename (sourceMapFilename config)
    (assetsPath config) reactNativePath
    (match hermesCLIPath config with
     | Some (String c s) => String c s
     | _ => getHermesCLIPath reactNativePath
     end).

End ApplyContext.

(** ** A concrete setting to run the plugin in *)

Module Example.

(** The last separator of a path: what is before it and what is after. *)
Fixpoint splitLast (s : string) : option (string * string) :=
  match s with
  | EmptyString => None
  | String c s' =>
      match splitLast s' with
      | Some (d, b) => Some (String c d, b)
      | None => if Ascii.eqb c "/"%char then Some (EmptyString, s') else None
      end
  end.

(** The three functions of [path] on absolute POSIX paths that are already
    normalised (no [.] or [..] segment, no repeated or trailing separator)
    and whose directory is not the root, where joining is concatenation with
    one separator.  On relative paths and on files directly under the root
    Node normalises further ([join] of [.] or of the root with a name); the
    examples below do not use such paths. *)
#[local] Instance posix : PathLib := {
  path_join a b :=
    match a, b with
    | EmptyString, _ => b
    | _, EmptyString => a
    | _, _ => a +:+ "/" +:+ b
    end;
  path_dirname p :=
    match splitLast p with
    | Some (EmptyString, _) => "/"
    | Some (d, _) => d
    | None => "."
    end;
  path_basename p :=
    match splitLast p with
    | Some (_, b) => b
    | None => p
    end
}.

Definition matchRule (filename : string) (r : Rule) : bool :=
  match r with
  | RuleString s => String.prefix s filename
  | RuleRegExp _ => true
  end.

(** A host whose rules are read as prefixes ([test] and [include] as
    webpack reads string rules; a regular expression is taken to match, and
    an empty list stands for an option that is not given), and whose Hermes
    binary is at a fixed place under React Native.  It stands in for
    webpack's [matchObject] on the rules of the examples below only. *)
#[local] Instance host : Host := {
  matchObject config filename :=
    (match test config with [] => true | rs => existsb (matchRule filename) rs end)
    && (match include config with [] => true | rs => existsb (matchRule filename) rs end)
    && negb (match exclude config with
             | [] => false
             | rs => existsb (matchRule filename) rs
             end);
  getHermesCLIPath reactNativePath := reactNativePath +:+ "/sdks/hermesc/hermesc"
}.

(** Tools that always succeed and mark what they produce. *)
#[local] Instance tools : Tools := {
  hermesc _ text := Some ("HBC " +:+ text, "HBCMAP " +:+ text);
  compilerMapPathOf filePath := filePath +:+ ".hbc.map";
  composeScript packagerMap compilerMap :=
    Some (packagerMap +:+ " THEN " +:+ compilerMap)
}.

Definition config (platform : string) : ChunksToHermesBytecodePluginConfig :=
  {| enabled := true;
     platform := platform;
     bundleFilename := Some "/out/main.jsbundle";
     sourceMapFilename := None;
     assetsPath := Some "/out/assets";
     reactNativePath := None;
     hermesCLIPath := None;
     test := [RuleRegExp "\.(js)?bundle$"];
     include := [];
     exclude := [] |}.

Definition ctx (platform : string) : Context_ :=
  mkContext platform "/out/main.jsbundle" None (Some "/out/assets")
    "./node_modules/react-native"
    "./node_modules/react-native/sdks/hermesc/hermesc".

Definition compilation : Compilation :=
  {| getAssets := [mkAsset "index.bundle"; mkAsset "chunk1.bundle"];
     getPath filename := filename |}.

(** Both bundles and their maps are on disk, as after an iOS build. *)
Definition disk : Files :=
  list_to_map
    [("/out/main.jsbundle", "main text");
     ("/out/main.jsbundle.map", "main map");
     ("/out/assets/chunk1.bundle", "chunk text");
     ("/out/assets/chunk1.bundle.map", "chunk map")].

(** Only the main bundle is on disk, without a map. *)
Definition diskMainOnly : Files :=
  list_to_map [("/out/main.jsbundle", "main text")].

(** The configuration without a bundle output path, enabled or not. *)
Definition configNoOutput (enabled : bool)
    : ChunksToHermesBytecodePluginConfig :=
  {| enabled := enabled;
     platform := "android";
     bundleFilename := None;
     sourceMapFilename := None;
     assetsPath := None;
     reactNativePath := None;
     hermesCLIPath := None;
     test := [RuleRegExp "\.(js)?bundle$"];
     include := [];
     exclude := [] |}.

(** A context with neither a source-map nor an assets output path. *)
Definition ctxDefaults : Context_ :=
  mkContext "android" "/out/main.jsbundle" None None
    "./node_modules/react-native"
    "./node_modules/react-native/sdks/hermesc/hermesc".

Definition index : Asset := mkAsset "index.bundle".
Definition chunk1 : Asset := mkAsset "chunk1.bundle".

(** A configuration whose rule matches the names starting with [chunk], and
    a compilation that has emitted the main bundle only. *)
Definition configChunksOnly : ChunksToHermesBytecodePluginConfig :=
  {| enabled := true;
     platform := "ios";
     bundleFilename := Some "/out/main.jsbundle";
     sourceMapFilename := None;
     assetsPath := Some "/out/assets";
     reactNativePath := None;
     hermesCLIPath := Some "/opt/hermes/hermesc";
     test := [RuleString "chunk"];
     include := [];
     exclude := [] |}.

Definition compilationMainOnly : Compilation :=
  {| getAssets := [index];
     getPath filename := filename |}.

(** Two pipelines for the same secondary bundle, as when the bundler lists
    an asset twice. *)
Definition twiceChunk1 : list (Prog unit) :=
  [processAsset (ctx "ios") compilation chunk1;
   processAsset (ctx "ios") compilation chunk1].

End Example.

(** * Properties *)

(** ** Path resolution *)

Section PathProperties.
Context `{PathLib}.

Lemma isMainBundle_true (asset : Asset) :
  isMainBundle asset = true <-> name asset = "index.bundle".
Proof. unfold isMainBundle, mainBundleName. apply String.eqb_eq. Qed.

Lemma isMainBundle_false (asset : Asset) :
  isMainBundle asset = false <-> name asset <> "index.bundle".
Proof. unfold isMainBundle, mainBundleName. apply String.eqb_neq. Qed.

Lemma isIOS_true (ctx : Context_) :
  isIOS ctx = true <-> ctx_platform ctx = "ios".
Proof. apply String.eqb_eq. Qed.

Lemma isIOS_false (ctx : Context_) :
  isIOS ctx = false <-> ctx_platform ctx <> "ios".
Proof. apply String.eqb_neq. Qed.

Lemma isMainBundle_decide (asset : Asset) :
  isMainBundle asset = bool_decide (name asset = mainBundleName).
Proof.
  case_bool_decide as Hn.
  - by apply isMainBundle_true.
  - by apply isMainBundle_false.
Qed.

Lemma isIOS_decide (ctx : Context_) :
  isIOS ctx = bool_decide (ctx_platform ctx = "ios").
Proof.
  case_bool_decide as Hp.
  - by apply isIOS_true.
  - by apply isIOS_false.
Qed.

(** C1: an asset is treated as the main bundle if and only if its name is
    the main-entry bundle name, [index.bundle]; every other asset is
    treated as secondary, that is, not as the main bundle. *)
Theorem main_bundle_iff_name (asset : Asset) :
  (isMainBundle asset = true <-> name asset = mainBundleName) /\
  (isMainBundle asset = false <-> name asset <> mainBundleName).
Proof. split; [apply isMainBundle_true | apply isMainBundle_false]. Qed.

(** C2: the resolved bundle path of an asset is the configured bundle
    output path for the main bundle, whatever the platform; for a secondary
    bundle it is the asset's path joined to the assets output directory on
    ios and to the bundle output directory on any other platform. *)
Theorem bundle_path_resolution (ctx : Context_) (compilation : Compilation)
    (asset : Asset) :
  bundleOutputPath ctx compilation asset =
    (if decide (name asset = mainBundleName)
     then ctx_bundleFilename ctx
     else if decide (ctx_platform ctx = "ios")
          then path_join (ctx_assetsOutputDir ctx)
                 (getPath compilation (name asset))
          else path_join (ctx_bundleOutputDir ctx)
                 (getPath compilation (name asset))) /\
  (name asset = mainBundleName ->
   forall platform' : string,
     bundleOutputPath
       (mkContext platform' (ctx_bundleFilename ctx)
          (ctx_sourceMapFilename ctx) (ctx_assetsPath ctx)
          (ctx_reactNativePath ctx) (ctx_hermesCLIPath ctx))
       compilation asset
     = bundleOutputPath ctx compilation asset).
Proof.
  unfold bundleOutputPath. rewrite isMainBundle_decide, isIOS_decide.
  split.
  - repeat case_decide; repeat case_bool_decide; done.
  - intros Hn platform'. by rewrite bool_decide_eq_true_2.
Qed.


(** C4: when no source-map output path is configured, the source-map
    output directory used in path resolution is the directory of the
    configured bundle output path; when no assets output path is
    configured, the assets output directory is that same directory. *)
Theorem output_dirs_default (ctx : Context_) :
  (truthy (ctx_sourceMapFilename ctx) = false ->
   ctx_sourcemapOutputDir ctx = path_dirname (ctx_bundleFilename ctx)) /\
  (truthy (ctx_assetsPath ctx) = false ->
   ctx_assetsOutputDir ctx = path_dirname (ctx_bundleFilename ctx)).
Proof.
  unfold ctx_sourcemapOutputDir, ctx_assetsOutputDir, sourcemapOutputDir,
    assetsOutputDir, bundleOutputDir, or_else.
  split.
  - destruct (ctx_sourceMapFilename ctx) as [[|c s]|]; simpl; congruence.
  - destruct (ctx_assetsPath ctx) as [[|c s]|]; simpl; congruence.
Qed.

End PathProperties.

(** ** One asset's pipeline *)

Section PipelineProperties.
Context `{PathLib} `{Host} `{Tools}.

Lemma run_fst_snd {A : Type} (p : Prog A) (fs : Files) :
  run p fs = (fst (fst (run p fs)), snd (fst (run p fs)), snd (run p fs)).
Proof. by destruct (run p fs) as [[fs' tr] out]. Qed.

Lemma run_Await {A R : Type} (op : Op R) (k : Error + R -> Prog A)
    (fs : Files) :
  run (Await op k) fs =
    (fst (fst (run (k (snd (handle op fs))) (fst (handle op fs)))),
     Ev op (snd (handle op fs))
       :: snd (fst (run (k (snd (handle op fs))) (fst (handle op fs)))),
     snd (run (k (snd (handle op fs))) (fst (handle op fs)))).
Proof.
  simpl. destruct (handle op fs) as [fs1 r]. simpl.
  by destruct (run (k r) fs1) as [[fs2 tr] out].
Qed.

(** Runs the operations at the head of a computation for as long as their
    answers are known. *)
Ltac run_steps :=
  repeat first
    [ progress cbn [bind negb fst snd handle run]
    | rewrite run_Await ].

(** C5: in the pipeline of an asset whose bundle file exists, a source map
    found at the resolved source-map path is renamed to the packager-map
    path, and otherwise the absence is logged and the pipeline goes on
    without source maps; the transform step is asked for a compiler map
    exactly when the source map was found; and when the transform has
    succeeded, the compose step runs exactly when the source map was found,
    with the resolved source-map path as its output file. *)
Theorem source_map_steps (ctx : Context_) (compilation : Compilation)
    (asset : Asset) (fs : Files) :
  let bundlePath := bundleOutputPath ctx compilation asset in
  let mapPath := sourcemapOutputPath ctx compilation asset in
  let packagerPath := packagerMapPath ctx compilation asset in
  let found := bool_decide (is_Some (fs !! mapPath)) in
  is_Some (fs !! bundlePath) ->
  exists (transformed : Error + HermesAsset.t) (composed : Error + unit),
    snd (fst (run (processAsset ctx compilation asset) fs)) =
     ([Ev (Log debug ("Starting hermes compilation for asset: " +:+ name asset))
          (inr tt);
       Ev (FsAccess bundlePath) (inr tt)]
      ++ (if found
          then [Ev (FsAccess mapPath) (inr tt);
                Ev (FsRename mapPath packagerPath) (inr tt)]
          else [Ev (FsAccess mapPath) (inl (ENOENT mapPath));
                Ev (Log info
                      "No source maps found, did you forget to specify '--sourcemap-output'?")
                   (inr tt)])
      ++ [Ev (TransformBundleToHermesBytecode
                (TransformArgs.mk (ctx_hermesCLIPath ctx) found bundlePath))
             transformed]
      ++ match transformed with
         | inl _ => []
         | inr hermesAsset =>
             Ev (Log info
                   ("Asset transformed: " +:+ getPath compilation (name asset)))
                (inr tt)
             :: (if found
                 then [Ev (ComposeSourceMaps
                             (ComposeArgs.mk (ctx_reactNativePath ctx)
                                packagerPath
                                (HermesAsset.sourceMap hermesAsset) mapPath))
                          composed]
                 else [])
         end)%list.
Proof.
  intros bundlePath mapPath packagerPath found [text Htext].
  unfold processAsset, logger_debug, logger_info, fileExists, await.
  fold bundlePath mapPath packagerPath.
  run_steps. rewrite Htext. run_steps.
  unfold found. destruct (fs !! mapPath) as [m|] eqn:Hm.
  - rewrite bool_decide_eq_true_2 by eauto.
    run_steps. rewrite Hm. run_steps.
    set (rt := transformBundleToHermesBytecode _ _).
    destruct rt as [fs_t [e|h]]; run_steps.
    + exists (inl e), (inr tt). reflexivity.
    + set (rc := composeSourceMaps _ _).
      exists (inr h), (snd rc).
      destruct rc as [fs_c [e|[]]]; reflexivity.
  - rewrite bool_decide_eq_false_2 by (intros [? ?]; congruence).
    run_steps.
    set (rt := transformBundleToHermesBytecode _ _).
    destruct rt as [fs_t [e|h]]; run_steps.
    + exists (inl e), (inr tt). reflexivity.
    + exists (inr h), (inr tt). reflexivity.
Qed.

(** ** The guards of [apply] *)

Lemma runPool_no_tasks (schedule : list nat) (fs : Files)
    (tr : list (nat * Event)) :
  runPool schedule (mkPool fs [] tr) = mkPool fs [] tr.
Proof.
  unfold runPool. induction schedule as [|i s IH]; [done|].
  simpl. unfold stepAt at 2. simpl. exact IH.
Qed.

(** C7: with the plugin disabled, [apply] only logs an informational
    message: it throws nothing, taps no callback and leaves the files as
    they are, so that a build runs no asset pipeline and changes no
    file. *)
Theorem disabled_is_noop (config : ChunksToHermesBytecodePluginConfig)
    (fs : Files) :
  enabled config = false ->
  run (apply config) fs =
    (fs, [Ev (Log info "Skipping hermes compilation") (inr tt)],
     Fulfilled []) /\
  forall (schedule : list nat) (compilation : Compilation),
    webpackBuild schedule config compilation fs =
      mkBuild [Ev (Log info "Skipping hermes compilation") (inr tt)]
        (inr (mkPool fs [] [])).
Proof.
  intros Hoff.
  assert (Hrun : run (apply config) fs =
    (fs, [Ev (Log info "Skipping hermes compilation") (inr tt)],
     Fulfilled [])).
  { unfold apply. rewrite Hoff. reflexivity. }
  split; [exact Hrun|].
  intros schedule compilation. unfold webpackBuild. rewrite Hrun.
  simpl. by rewrite runPool_no_tasks.
Qed.

(** C6: with the plugin enabled and no bundle output path configured,
    [apply] logs and throws before it taps any callback: the build fails
    with that error, and no step of any asset's pipeline (no existence
    check, rename, transform or compose) is run. *)
Theorem missing_bundle_output_fails_fast
    (config : ChunksToHermesBytecodePluginConfig) (fs : Files) :
  enabled config = true ->
  truthy (bundleFilename config) = false ->
  run (apply config) fs =
    (fs,
     [Ev (Log error
            "Hermes compilation is only supported for the 'webpack-bundle' command. You can disable this plugin via the 'enabled' option.")
         (inr tt);
      Ev (Log info
            "Did you forget to provide an explicit '--bundle-output <path>' option to 'webpack-bundle'?")
         (inr tt)],
     Rejected (JsError
       "Hermes compilation is only supported for bundle builds with --bundle-output"))
  /\
  forall (schedule : list nat) (compilation : Compilation),
    build_result (webpackBuild schedule config compilation fs) =
      inl (JsError
        "Hermes compilation is only supported for bundle builds with --bundle-output").
Proof.
  intros Hon Hmissing.
  assert (Hrun : run (apply config) fs =
    (fs,
     [Ev (Log error
            "Hermes compilation is only supported for the 'webpack-bundle' command. You can disable this plugin via the 'enabled' option.")
         (inr tt);
      Ev (Log info
            "Did you forget to provide an explicit '--bundle-output <path>' option to 'webpack-bundle'?")
         (inr tt)],
     Rejected (JsError
       "Hermes compilation is only supported for bundle builds with --bundle-output"))).
  { unfold apply. rewrite Hon.
    destruct (bundleFilename config) as [[|c s]|]; simpl in Hmissing;
      try discriminate; reflexivity. }
  split; [exact Hrun|].
  intros schedule compilation. unfold webpackBuild. by rewrite Hrun.
Qed.

(** C10: the enabled flag is tested before the configuration is validated:
    with the flag false, [apply] returns without throwing whatever the
    bundle output path is, in particular when it is missing. *)
Theorem disabled_check_precedes_validation
    (config : ChunksToHermesBytecodePluginConfig) (fs : Files) :
  enabled config = false ->
  snd (run (apply config) fs) = Fulfilled [] /\
  forall bundleFilename' : option string,
    snd (run (apply
                (mkConfig false (platform config) bundleFilename'
                   (sourceMapFilename config) (assetsPath config)
                   (reactNativePath config) (hermesCLIPath config)
                   (test config) (include config) (exclude config)))
           fs)
    = Fulfilled [].
Proof.
  intros Hoff. split.
  - unfold apply. by rewrite Hoff.
  - intros bundleFilename'. reflexivity.
Qed.

(** ** Pools of promises *)

Lemma runPool_cons (i : nat) (s : list nat) (st : Pool) :
  runPool (i :: s) st = runPool s (stepAt st i).
Proof. reflexivity. Qed.

Lemma runPool_app (s t : list nat) (st : Pool) :
  runPool (s ++ t) st = runPool t (runPool s st).
Proof. apply foldl_app. Qed.

Lemma stepAt_setTask (i j : nat) (p : Prog unit) (st : Pool) :
  i <> j -> stepAt (setTask i p st) j = setTask i p (stepAt st j).
Proof.
  intros Hij. destruct st as [fs T tr]. unfold stepAt, setTask. simpl.
  rewrite list_lookup_insert_ne by done.
  destruct (T !! j) as [[a|e|R op k]|]; try reflexivity.
  destruct (handle op fs) as [fs1 r]. simpl.
  f_equal. by apply list_insert_insert_ne.
Qed.

Lemma runPool_setTask (i : nat) (p : Prog unit) (s : list nat) (st : Pool) :
  i ∉ s -> runPool s (setTask i p st) = setTask i p (runPool s st).
Proof.
  revert st. induction s as [|j s IH]; intros st Hi; [reflexivity|].
  apply not_elem_of_cons in Hi as [Hij Hi].
  rewrite !runPool_cons, stepAt_setTask by done. by apply IH.
Qed.

Lemma stepAt_withTrace (tr : list (nat * Event)) (j : nat) (st : Pool) :
  stepAt (withTrace tr st) j = withTrace tr (stepAt st j).
Proof.
  destruct st as [fs T tr0]. unfold stepAt, withTrace. simpl.
  destruct (T !! j) as [[a|e|R op k]|]; try reflexivity.
  destruct (handle op fs) as [fs1 r]. simpl. by rewrite app_assoc.
Qed.

Lemma runPool_withTrace (tr : list (nat * Event)) (s : list nat)
    (st : Pool) :
  runPool s (withTrace tr st) = withTrace tr (runPool s st).
Proof.
  revert st. induction s as [|j s IH]; intros st; [reflexivity|].
  by rewrite !runPool_cons, stepAt_withTrace, IH.
Qed.

Lemma stepAt_length (j : nat) (st : Pool) :
  length (pool_tasks (stepAt st j)) = length (pool_tasks st).
Proof.
  destruct st as [fs T tr]. unfold stepAt. simpl.
  destruct (T !! j) as [[a|e|R op k]|]; try reflexivity.
  destruct (handle op fs) as [fs1 r]. simpl. apply length_insert.
Qed.

Lemma runPool_length (s : list nat) (st : Pool) :
  length (pool_tasks (runPool s st)) = length (pool_tasks st).
Proof.
  revert st. induction s as [|j s IH]; intros st; [reflexivity|].
  by rewrite runPool_cons, IH, stepAt_length.
Qed.

(** A settled promise stays as it is. *)
Lemma stepAt_settled (i j : nat) (p : Prog unit) (st : Pool) :
  pool_tasks st !! i = Some p -> settled p = true ->
  pool_tasks (stepAt st j) !! i = Some p.
Proof.
  intros Hp Hset. destruct st as [fs T tr]. unfold stepAt. simpl in *.
  destruct (T !! j) as [[a|e|R op k]|] eqn:Hj; try done.
  destruct (handle op fs) as [fs1 r]. simpl.
  destruct (decide (i = j)) as [->|Hij].
  - rewrite Hp in Hj. by simplify_eq.
  - by rewrite list_lookup_insert_ne.
Qed.

Lemma runPool_settled (i : nat) (p : Prog unit) (s : list nat) (st : Pool) :
  pool_tasks st !! i = Some p -> settled p = true ->
  pool_tasks (runPool s st) !! i = Some p.
Proof.
  revert st. induction s as [|j s IH]; intros st Hp Hset; [done|].
  rewrite runPool_cons. apply IH; [|done]. by apply stepAt_settled.
Qed.

(** One promise of a pool can be run on its own until it has settled, and
    this leaves the other promises as they were. *)
Lemma pool_task_completes (p : Prog unit) (i : nat) (st : Pool) :
  pool_tasks st !! i = Some p ->
  exists (n : nat) (q : Prog unit),
    settled q = true /\
    pool_tasks (runPool (replicate n i) st) = <[i := q]> (pool_tasks st).
Proof.
  revert st. induction p as [a|e|R op k IH]; intros st Hp.
  - exists 0, (Ret a). split; [done|]. simpl. by rewrite list_insert_id.
  - exists 0, (Throw e). split; [done|]. simpl. by rewrite list_insert_id.
  - destruct (IH (snd (handle op (pool_files st))) (stepAt st i))
      as (n & q & Hq & Htasks).
    { destruct st as [fs T tr]. unfold stepAt. simpl in *. rewrite Hp.
      destruct (handle op fs) as [fs1 r]. simpl.
      apply list_lookup_insert_eq. by eapply lookup_lt_Some. }
    exists (S n), q. split; [done|].
    simpl replicate. rewrite runPool_cons, Htasks.
    destruct st as [fs T tr]. unfold stepAt. simpl in *. rewrite Hp.
    destruct (handle op fs) as [fs1 r]. simpl.
    apply list_insert_insert_eq.
Qed.

(** Every pool can be run until all its promises have settled. *)
Lemma pool_completes_upto (k : nat) (st : Pool) :
  exists s : list nat,
    Forall (fun p => settled p = true) (take k (pool_tasks (runPool s st))).
Proof.
  induction k as [|k [s Hs]].
  - exists []. rewrite take_0. constructor.
  - destruct (pool_tasks (runPool s st) !! k) as [p|] eqn:Hk.
    + destruct (pool_task_completes p k (runPool s st) Hk)
        as (n & q & Hq & Htasks).
      exists (s ++ replicate n k). rewrite runPool_app, Htasks.
      pose proof (lookup_lt_Some _ _ _ Hk) as Hlt.
      erewrite take_S_r by (by apply list_lookup_insert_eq).
      rewrite take_insert_ge by lia.
      apply Forall_app. split; [done|]. by constructor.
    + exists s. apply lookup_ge_None in Hk.
      rewrite take_ge by lia. by rewrite take_ge in Hs by lia.
Qed.

Lemma pool_completes (st : Pool) :
  exists s : list nat,
    Forall (fun p => settled p = true) (pool_tasks (runPool s st)).
Proof.
  destruct (pool_completes_upto (length (pool_tasks st)) st) as [s Hs].
  exists s. by rewrite take_ge in Hs by (by rewrite runPool_length).
Qed.

Lemma stepAt_Await {R : Type} (i : nat) (op : Op R)
    (k : Error + R -> Prog unit) (st : Pool) :
  pool_tasks st !! i = Some (Await op k) ->
  stepAt st i =
    mkPool (fst (handle op (pool_files st)))
      (<[i := k (snd (handle op (pool_files st)))]> (pool_tasks st))
      (pool_trace st ++ [(i, Ev op (snd (handle op (pool_files st))))]).
Proof.
  intros Hi. unfold stepAt. rewrite Hi.
  by destruct (handle op (pool_files st)) as [fs1 r].
Qed.

(** The promises the tapped callback hands to [Promise.all] are the
    pipelines of the assets that match the plugin's rules, in the order of
    the assets. *)
Lemma afterEmit_tasks (config : ChunksToHermesBytecodePluginConfig)
    (ctx : Context_) (compilation : Compilation) (p : Prog unit) :
  p ∈ afterEmit config ctx compilation <->
  exists asset : Asset,
    asset ∈ getAssets compilation /\
    shouldUseHermesByteCode config (name asset) = true /\
    p = processAsset ctx compilation asset.
Proof.
  unfold afterEmit. rewrite list_elem_of_In, in_map_iff. split.
  - intros (asset & <- & Hin). apply filter_In in Hin as [Hin Hmatch].
    exists asset. by rewrite list_elem_of_In.
  - intros (asset & Hin & Hmatch & ->). exists asset. split; [done|].
    apply filter_In. by rewrite <- list_elem_of_In.
Qed.

Lemma mkPool_withTrace (fs : Files) (T : list (Prog unit))
    (tr : list (nat * Event)) :
  mkPool fs T tr = withTrace tr (mkPool fs T []).
Proof. unfold withTrace. simpl. by rewrite app_nil_r. Qed.

(** C8: a matching asset whose bundle file is missing when its pipeline
    looks for it is logged and skipped, and only it: its promise is
    fulfilled, not rejected; its only operations are two log entries and
    the existence check, none of which writes a file; and under every
    schedule the files and the other assets' pipelines end as they do when
    that asset's pipeline is replaced by one that does nothing, all of them
    being able to run to completion. *)
Theorem missing_bundle_skips_asset_only (ctx : Context_)
    (compilation : Compilation) (asset : Asset) (fs : Files)
    (tasks : list (Prog unit)) (i : nat) (s1 s2 s3 : list nat) :
  let bundlePath := bundleOutputPath ctx compilation asset in
  let start := mkPool fs tasks [] in
  let skipped := runPool (i :: s1 ++ i :: s2 ++ i :: s3) start in
  let without := runPool (s1 ++ s2 ++ s3) (setTask i (Ret tt) start) in
  tasks !! i = Some (processAsset ctx compilation asset) ->
  i ∉ s1 -> i ∉ s2 ->
  pool_files (runPool (i :: s1) start) !! bundlePath = None ->
  pool_files skipped = pool_files without /\
  pool_tasks skipped = pool_tasks without /\
  pool_tasks skipped !! i = Some (Ret tt) /\
  (exists t1 t2 t3 : list (nat * Event),
     pool_trace without = t1 ++ t2 ++ t3 /\
     pool_trace skipped =
       (i, Ev (Log debug
                 ("Starting hermes compilation for asset: " +:+ name asset))
              (inr tt))
       :: t1 ++
       (i, Ev (FsAccess bundlePath) (inl (ENOENT bundlePath)))
       :: t2 ++
       (i, Ev (Log error ("Bundle does not exist: " +:+ bundlePath))
              (inr tt))
       :: t3) /\
  (exists rest : list nat,
     Forall (fun p => settled p = true)
       (pool_tasks (runPool rest skipped))).
Proof.
  intros bundlePath start skipped without Hi Hs1 Hs2 Hmissing.
  pose proof (lookup_lt_Some _ _ _ Hi) as Hlen.
  (* the first step of the asset: the debug entry *)
  assert (Hstep1 : exists k1,
    stepAt start i =
      withTrace [(i, Ev (Log debug
                  ("Starting hermes compilation for asset: " +:+ name asset))
                  (inr tt))]
        (setTask i (Await (FsAccess bundlePath) k1) start) /\
    k1 (inl (ENOENT bundlePath)) =
      Await (Log error ("Bundle does not exist: " +:+ bundlePath))
        (fun r => bind match r with inl e => Throw e | inr v => Ret v end
                    (fun _ => Ret tt))).
  { eexists. split.
    - unfold start at 1. erewrite stepAt_Await by exact Hi. reflexivity.
    - reflexivity. }
  destruct Hstep1 as (k1 & Hstep1 & Hk1).
  destruct (runPool s1 start) as [f1 T1 t1] eqn:E1.
  assert (Hlen1 : i < length T1).
  { change T1 with (pool_tasks (mkPool f1 T1 t1)).
    by rewrite <- E1, runPool_length. }
  assert (Hf1 : f1 !! bundlePath = None).
  { rewrite runPool_cons, Hstep1, runPool_withTrace, runPool_setTask, E1
      in Hmissing by done. exact Hmissing. }
  destruct (runPool s2 (mkPool f1 T1 [])) as [f2 T2 t2] eqn:E2.
  assert (Hlen2 : i < length T2).
  { change T2 with (pool_tasks (mkPool f2 T2 t2)).
    by rewrite <- E2, runPool_length. }
  destruct (runPool s3 (mkPool f2 (<[i := Ret tt]> T2) []))
    as [f3 T3 t3] eqn:E3.
  (* the run with the asset *)
  assert (Hskipped : skipped =
    mkPool f3 T3
      ((i, Ev (Log debug
                 ("Starting hermes compilation for asset: " +:+ name asset))
              (inr tt))
       :: t1 ++
       (i, Ev (FsAccess bundlePath) (inl (ENOENT bundlePath)))
       :: t2 ++
       (i, Ev (Log error ("Bundle does not exist: " +:+ bundlePath))
              (inr tt))
       :: t3)).
  { unfold skipped.
    rewrite runPool_cons, Hstep1, runPool_app, runPool_withTrace,
      runPool_setTask, E1 by done.
    rewrite runPool_cons.
    erewrite stepAt_Await
      by (simpl; by apply list_lookup_insert_eq).
    simpl. rewrite Hf1. simpl. rewrite Hk1, list_insert_insert_eq.
    rewrite runPool_app.
    rewrite mkPool_withTrace.
    match goal with
    | |- context [mkPool f1 (<[i := ?k2]> T1) []] =>
        change (mkPool f1 (<[i := k2]> T1) [])
          with (setTask i k2 (mkPool f1 T1 []))
    end.
    rewrite runPool_withTrace, runPool_setTask, E2 by done.
    rewrite runPool_cons.
    erewrite stepAt_Await
      by (simpl; by apply list_lookup_insert_eq).
    simpl. rewrite list_insert_insert_eq.
    rewrite mkPool_withTrace, runPool_withTrace, E3.
    unfold withTrace. simpl.
    f_equal. rewrite <- !app_assoc. reflexivity. }
  (* the run without it *)
  assert (Hwithout : without = mkPool f3 T3 (t1 ++ t2 ++ t3)).
  { unfold without.
    rewrite !runPool_app, runPool_setTask, E1 by done.
    unfold setTask at 1. simpl. rewrite mkPool_withTrace.
    change (mkPool f1 (<[i := Ret tt]> T1) [])
      with (setTask i (Ret tt) (mkPool f1 T1 [])).
    rewrite runPool_withTrace, runPool_setTask, E2 by done.
    unfold setTask, withTrace at 1. simpl.
    rewrite mkPool_withTrace, runPool_withTrace, E3.
    unfold withTrace. simpl. by rewrite <- app_assoc. }
  rewrite Hskipped, Hwithout. simpl.
  split; [done|]. split; [done|]. split.
  - change T3 with (pool_tasks (mkPool f3 T3 t3)). rewrite <- E3.
    apply runPool_settled; [|done]. simpl.
    by apply list_lookup_insert_eq.
  - split; [by exists t1, t2, t3|].
    rewrite <- Hskipped. apply pool_completes.
Qed.

(** ** The packager map *)

Lemma runN_Await {A R : Type} (n : nat) (op : Op R)
    (k : Error + R -> Prog A) (fs : Files) :
  runN (S n) (Await op k) fs =
    (fst (fst (runN n (k (snd (handle op fs))) (fst (handle op fs)))),
     Ev op (snd (handle op fs))
       :: snd (fst (runN n (k (snd (handle op fs))) (fst (handle op fs)))),
     snd (runN n (k (snd (handle op fs))) (fst (handle op fs)))).
Proof.
  simpl. destruct (handle op fs) as [fs1 r]. simpl.
  by destruct (runN n (k r) fs1) as [[fs2 tr] p'].
Qed.

(** Running to the end is running [n] operations and then the rest. *)
Lemma run_runN {A : Type} (n : nat) (p : Prog A) (fs : Files) :
  run p fs =
    (fst (fst (run (snd (runN n p fs)) (fst (fst (runN n p fs))))),
     snd (fst (runN n p fs))
       ++ snd (fst (run (snd (runN n p fs)) (fst (fst (runN n p fs))))),
     snd (run (snd (runN n p fs)) (fst (fst (runN n p fs))))).
Proof.
  revert p fs. induction n as [|n IH]; intros p fs.
  - replace (runN 0 p fs) with (fs, @nil Event, p) by (by destruct p).
    apply run_fst_snd.
  - destruct p as [a|e|R op k]; [reflexivity..|].
    rewrite runN_Await, run_Await. cbn [fst snd].
    rewrite (IH (k (snd (handle op fs))) (fst (handle op fs))) at 1 2 3.
    reflexivity.
Qed.

Lemma transform_keeps_files (args : TransformArgs.t) (fs : Files)
    (path : string) :
  is_Some (fs !! path) ->
  is_Some (fst (transformBundleToHermesBytecode args fs) !! path).
Proof.
  intros Hsome. unfold transformBundleToHermesBytecode.
  destruct (fs !! TransformArgs.filePath args) as [text|]; [|done].
  destruct (hermesc _ text) as [[bytecode compilerMap]|]; [|done].
  destruct (TransformArgs.useSourceMaps args); simpl;
    rewrite ?lookup_insert_is_Some'; tauto.
Qed.

Lemma compose_consumes_packager_map (args : ComposeArgs.t) (fs : Files) :
  snd (composeSourceMaps args fs) = inr tt ->
  fst (composeSourceMaps args fs) !! ComposeArgs.packagerMapPath args = None.
Proof.
  unfold composeSourceMaps.
  destruct (ComposeArgs.compilerMapPath args) as [cp|]; [|done].
  destruct (fs !! ComposeArgs.packagerMapPath args) as [m1|]; [|done].
  destruct (fs !! cp) as [m2|]; [|done].
  destruct (composeScript m1 m2) as [m|]; [|done].
  intros _. simpl. apply lookup_delete_eq.
Qed.

Ltac runN_steps :=
  repeat first
    [ progress cbn [bind negb fst snd handle runN]
    | rewrite runN_Await ].

(** C9: in the pipeline of an asset processed with source maps, the
    packager map (the bundler's map, renamed to the packager-map path) is
    on disk once the rename step is done and up to the compose step, and
    it is not on disk any more when the pipeline, and so its compose step,
    has completed successfully. *)
Theorem packager_map_is_transient (ctx : Context_)
    (compilation : Compilation) (asset : Asset) (fs : Files)
    (bundlerMap : string) :
  let bundlePath := bundleOutputPath ctx compilation asset in
  let mapPath := sourcemapOutputPath ctx compilation asset in
  let packagerPath := packagerMapPath ctx compilation asset in
  let pipeline := processAsset ctx compilation asset in
  is_Some (fs !! bundlePath) ->
  fs !! mapPath = Some bundlerMap ->
  fst (fst (runN 4 pipeline fs)) !! packagerPath = Some bundlerMap /\
  (forall n : nat,
     4 <= n <= 6 ->
     is_Some (fst (fst (runN n pipeline fs)) !! packagerPath)) /\
  (snd (run pipeline fs) = Fulfilled tt ->
   fst (fst (run pipeline fs)) !! packagerPath = None).
Proof.
  intros bundlePath mapPath packagerPath pipeline [text Htext] Hmap.
  unfold pipeline, processAsset, logger_debug, logger_info, fileExists, await.
  fold bundlePath mapPath packagerPath.
  assert (Hrenamed :
    is_Some ((<[packagerPath := bundlerMap]> (delete mapPath fs))
               !! packagerPath)).
  { rewrite lookup_insert_eq. eauto. }
  split; [|split].
  - runN_steps. rewrite Htext. runN_steps. rewrite Hmap. runN_steps.
    rewrite Hmap. simpl. apply lookup_insert_eq.
  - intros n Hn.
    assert (Hcases : n = 4 \/ n = 5 \/ n = 6) by lia.
    destruct Hcases as [->|[->| ->]];
      runN_steps; rewrite Htext; runN_steps; rewrite Hmap; runN_steps;
      rewrite Hmap; cbn [fst snd]; runN_steps; try done.
    + match goal with
      | |- context [transformBundleToHermesBytecode ?a ?f] =>
          pose proof (transform_keeps_files a f packagerPath Hrenamed) as Hk;
          destruct (transformBundleToHermesBytecode a f) as [fs_t [e|h]]
      end; exact Hk.
    + match goal with
      | |- context [transformBundleToHermesBytecode ?a ?f] =>
          pose proof (transform_keeps_files a f packagerPath Hrenamed) as Hk;
          destruct (transformBundleToHermesBytecode a f) as [fs_t [e|h]]
      end; runN_steps; exact Hk.
  - run_steps. rewrite Htext. run_steps. rewrite Hmap. run_steps.
    rewrite Hmap. cbn [fst snd]. run_steps.
    match goal with
    | |- context [transformBundleToHermesBytecode ?a ?f] =>
        destruct (transformBundleToHermesBytecode a f) as [fs_t [e|h]]
    end; run_steps; [done|].
    match goal with
    | |- context [composeSourceMaps ?a ?f] =>
        pose proof (compose_consumes_packager_map a f) as Hc;
        destruct (composeSourceMaps a f) as [fs_c [e|[]]]
    end; run_steps; [done|].
    intros _. by apply Hc.
Qed.

End PipelineProperties.

(** ** The properties at work *)

Section Witnesses.
#[local] Existing Instances Example.posix Example.host Example.tools.

(** On android, the asset named [index.bundle] resolves to the configured
    bundle output path, not to a path under the bundle output directory. *)
Example android_main_bundle_path :
  bundleOutputPath (Example.ctx "android") Example.compilation Example.index
  = "/out/main.jsbundle".
Proof. reflexivity. Qed.

Example ios_chunk_paths :
  bundleOutputPath (Example.ctx "ios") Example.compilation Example.chunk1
    = "/out/assets/chunk1.bundle" /\
  sourcemapOutputPath (Example.ctx "ios") Example.compilation Example.chunk1
    = "/out/assets/chunk1.bundle.map" /\
  packagerMapPath (Example.ctx "ios") Example.compilation Example.chunk1
    = "/out/chunk1.bundle.packager.map".
Proof. repeat split. Qed.

(** The two forms of the source-map path can denote the same path: for the
    main bundle, when source maps are saved in the bundle's directory, the
    joined path is the bundle path with [.map] appended. *)
Example main_bundle_map_beside_bundle :
  sourcemapOutputPath (Example.ctx "ios") Example.compilation Example.index
  = bundleOutputPath (Example.ctx "ios") Example.compilation Example.index
    +:+ ".map".
Proof. reflexivity. Qed.


(** An iOS build of a main and a secondary bundle, both with maps: both
    bundles become bytecode, both maps are composed, and no packager map
    remains. *)
Example ios_build_end_to_end :
  match build_result
          (webpackBuild [0; 1; 0; 1; 0; 1; 0; 1; 0; 1; 0; 1; 0; 1]
             (Example.config "ios") Example.compilation Example.disk) with
  | inr st =>
      map_to_list (pool_files st) ≡ₚ
        [("/out/main.jsbundle", "HBC main text");
         ("/out/main.jsbundle.map", "main map THEN HBCMAP main text");
         ("/out/main.jsbundle.hbc.map", "HBCMAP main text");
         ("/out/assets/chunk1.bundle", "HBC chunk text");
         ("/out/assets/chunk1.bundle.map", "chunk map THEN HBCMAP chunk text");
         ("/out/assets/chunk1.bundle.hbc.map", "HBCMAP chunk text")]
      /\ pool_tasks st = [Ret tt; Ret tt]
  | inl _ => False
  end.
Proof.
  vm_compute. split; [|reflexivity].
  apply (bool_decide_unpack _). by vm_compute.
Qed.

Lemma bundle_path_resolution_witness :
  name Example.index = mainBundleName /\
  bundleOutputPath (Example.ctx "android") Example.compilation Example.index
    = "/out/main.jsbundle" /\
  bundleOutputPath (Example.ctx "ios") Example.compilation Example.index
    = bundleOutputPath (Example.ctx "android") Example.compilation
        Example.index.
Proof.
  destruct (bundle_path_resolution (Example.ctx "android")
              Example.compilation Example.index) as [Hpath Hplatform].
  split; [reflexivity|]. split.
  - exact Hpath.
  - exact (Hplatform eq_refl "ios").
Defined.

Lemma output_dirs_default_witness :
  truthy (ctx_sourceMapFilename Example.ctxDefaults) = false /\
  truthy (ctx_assetsPath Example.ctxDefaults) = false /\
  ctx_sourcemapOutputDir Example.ctxDefaults = "/out" /\
  ctx_assetsOutputDir Example.ctxDefaults = "/out".
Proof.
  destruct (output_dirs_default Example.ctxDefaults) as [Hmaps Hassets].
  split; [reflexivity|]. split; [reflexivity|]. split.
  - exact (Hmaps eq_refl).
  - exact (Hassets eq_refl).
Defined.

Lemma source_map_steps_witness :
  let ctx := Example.ctx "ios" in
  let bundlePath :=
    bundleOutputPath ctx Example.compilation Example.chunk1 in
  let mapPath :=
    sourcemapOutputPath ctx Example.compilation Example.chunk1 in
  let packagerPath :=
    packagerMapPath ctx Example.compilation Example.chunk1 in
  is_Some (Example.disk !! bundlePath) /\
  exists (transformed : Error + HermesAsset.t) (composed : Error + unit),
    snd (fst (run (processAsset ctx Example.compilation Example.chunk1)
                Example.disk)) =
      [Ev (Log debug "Starting hermes compilation for asset: chunk1.bundle")
          (inr tt);
       Ev (FsAccess bundlePath) (inr tt)]
      ++ [Ev (FsAccess mapPath) (inr tt);
          Ev (FsRename mapPath packagerPath) (inr tt)]
      ++ [Ev (TransformBundleToHermesBytecode
                (TransformArgs.mk (ctx_hermesCLIPath ctx) true bundlePath))
             transformed]
      ++ match transformed with
         | inl _ => []
         | inr hermesAsset =>
             [Ev (Log info "Asset transformed: chunk1.bundle") (inr tt);
              Ev (ComposeSourceMaps
                    (ComposeArgs.mk (ctx_reactNativePath ctx) packagerPath
                       (HermesAsset.sourceMap hermesAsset) mapPath))
                 composed]
         end.
Proof.
  assert (Hbundle :
    is_Some (Example.disk !! bundleOutputPath (Example.ctx "ios")
                               Example.compilation Example.chunk1)).
  { vm_compute. eauto. }
  split; [exact Hbundle|].
  exact (source_map_steps (Example.ctx "ios") Example.compilation
           Example.chunk1 Example.disk Hbundle).
Defined.

Lemma missing_bundle_output_fails_fast_witness :
  enabled (Example.configNoOutput true) = true /\
  truthy (bundleFilename (Example.configNoOutput true)) = false /\
  snd (run (apply (Example.configNoOutput true)) Example.disk) =
    Rejected (JsError
      "Hermes compilation is only supported for bundle builds with --bundle-output") /\
  build_result
    (webpackBuild [0; 1; 0; 1] (Example.configNoOutput true)
       Example.compilation Example.disk) =
    inl (JsError
      "Hermes compilation is only supported for bundle builds with --bundle-output").
Proof.
  destruct (missing_bundle_output_fails_fast (Example.configNoOutput true)
              Example.disk eq_refl eq_refl) as [Hrun Hbuild].
  split; [reflexivity|]. split; [reflexivity|]. split.
  - by rewrite Hrun.
  - exact (Hbuild [0; 1; 0; 1] Example.compilation).
Defined.

Lemma disabled_is_noop_witness :
  enabled (Example.configNoOutput false) = false /\
  run (apply (Example.configNoOutput false)) Example.disk =
    (Example.disk, [Ev (Log info "Skipping hermes compilation") (inr tt)],
     Fulfilled []) /\
  webpackBuild [0; 1; 0; 1] (Example.configNoOutput false)
    Example.compilation Example.disk =
    mkBuild [Ev (Log info "Skipping hermes compilation") (inr tt)]
      (inr (mkPool Example.disk [] [])).
Proof.
  destruct (disabled_is_noop (Example.configNoOutput false) Example.disk
              eq_refl) as [Hrun Hbuild].
  split; [reflexivity|]. split.
  - exact Hrun.
  - exact (Hbuild [0; 1; 0; 1] Example.compilation).
Defined.

Lemma disabled_check_precedes_validation_witness :
  enabled (Example.configNoOutput false) = false /\
  bundleFilename (Example.configNoOutput false) = None /\
  snd (run (apply (Example.configNoOutput false)) Example.disk)
    = Fulfilled [].
Proof.
  split; [reflexivity|]. split; [reflexivity|].
  exact (proj1 (disabled_check_precedes_validation
                  (Example.configNoOutput false) Example.disk eq_refl)).
Defined.

Lemma missing_bundle_skips_asset_only_witness :
  let ctx := Example.ctx "android" in
  let tasks :=
    afterEmit (Example.config "android") ctx Example.compilation in
  let start := mkPool Example.disk tasks [] in
  let skipped := runPool (1 :: [0; 0] ++ 1 :: [0] ++ 1 :: [0; 0; 0; 0]) start in
  let without :=
    runPool ([0; 0] ++ [0] ++ [0; 0; 0; 0]) (setTask 1 (Ret tt) start) in
  tasks !! 1 = Some (processAsset ctx Example.compilation Example.chunk1) /\
  (1 ∉ [0; 0]) /\ (1 ∉ [0]) /\
  pool_files (runPool (1 :: [0; 0]) start)
    !! bundleOutputPath ctx Example.compilation Example.chunk1 = None /\
  pool_files skipped = pool_files without /\
  pool_tasks skipped = pool_tasks without /\
  pool_tasks skipped !! 1 = Some (Ret tt).
Proof.
  intros ctx tasks start skipped without.
  assert (H1 : 1 ∉ [0; 0]) by (apply (bool_decide_unpack _); exact I).
  assert (H2 : 1 ∉ [0]) by (apply (bool_decide_unpack _); exact I).
  assert (Hmissing :
    pool_files (runPool (1 :: [0; 0]) start)
      !! bundleOutputPath ctx Example.compilation Example.chunk1 = None)
    by (vm_compute; reflexivity).
  destruct (missing_bundle_skips_asset_only ctx Example.compilation
              Example.chunk1 Example.disk tasks 1 [0; 0] [0] [0; 0; 0; 0]
              eq_refl H1 H2 Hmissing)
    as (Hfiles & Htasks & Hdone & _).
  exact (conj eq_refl (conj H1 (conj H2 (conj Hmissing
           (conj Hfiles (conj Htasks Hdone)))))).
Defined.

Lemma packager_map_is_transient_witness :
  let ctx := Example.ctx "ios" in
  let pipeline := processAsset ctx Example.compilation Example.index in
  let packagerPath := packagerMapPath ctx Example.compilation Example.index in
  is_Some (Example.disk
             !! bundleOutputPath ctx Example.compilation Example.index) /\
  Example.disk !! sourcemapOutputPath ctx Example.compilation Example.index
    = Some "main map" /\
  snd (run pipeline Example.disk) = Fulfilled tt /\
  fst (fst (runN 4 pipeline Example.disk)) !! packagerPath
    = Some "main map" /\
  fst (fst (run pipeline Example.disk)) !! packagerPath = None.
Proof.
  intros ctx pipeline packagerPath.
  assert (Hbundle :
    is_Some (Example.disk
               !! bundleOutputPath ctx Example.compilation Example.index))
    by (vm_compute; eauto).
  assert (Hmap :
    Example.disk !! sourcemapOutputPath ctx Example.compilation Example.index
      = Some "main map") by (vm_compute; reflexivity).
  assert (Hdone : snd (run pipeline Example.disk) = Fulfilled tt)
    by (vm_compute; reflexivity).
  destruct (packager_map_is_transient ctx Example.compilation Example.index
              Example.disk "main map" Hbundle Hmap)
    as (Hrenamed & _ & Hgone).
  exact (conj Hbundle (conj Hmap (conj Hdone
           (conj Hrenamed (Hgone Hdone))))).
Defined.

End Witnesses.

(** * Further properties *)

(** ** Which options a resolved path depends on *)

Section PathDependencies.
Context `{PathLib}.

(** X1: the three paths of the main bundle depend on the bundle output path
    and on the source-map output path only: they are the same on every
    platform, for every assets path and wherever the compilation has emitted
    the asset. *)
Theorem main_bundle_paths_fixed (ctx : Context_) (compilation : Compilation)
    (asset : Asset) (platform' : string) (assetsPath' : option string)
    (compilation' : Compilation) :
  name asset = mainBundleName ->
  let ctx' :=
    mkContext platform' (ctx_bundleFilename ctx) (ctx_sourceMapFilename ctx)
      assetsPath' (ctx_reactNativePath ctx) (ctx_hermesCLIPath ctx) in
  bundleOutputPath ctx' compilation' asset = ctx_bundleFilename ctx /\
  sourcemapOutputPath ctx' compilation' asset =
    path_join (ctx_sourcemapOutputDir ctx)
      (path_basename (ctx_bundleFilename ctx) +:+ ".map") /\
  packagerMapPath ctx' compilation' asset =
    path_join (ctx_sourcemapOutputDir ctx)
      (path_basename (ctx_bundleFilename ctx) +:+ ".packager.map").
Proof.
  intros Hmain ctx'.
  assert (Hb : bundleOutputPath ctx' compilation' asset = ctx_bundleFilename ctx).
  { unfold bundleOutputPath. by rewrite (proj2 (isMainBundle_true asset) Hmain). }
  split; [exact Hb|]. split.
  - unfold sourcemapOutputPath. rewrite Hb.
    by rewrite (proj2 (isMainBundle_true asset) Hmain).
  - unfold packagerMapPath. by rewrite Hb.
Qed.

(** X2: off ios the assets path is not used: on any other platform the three
    paths of every asset, main or secondary, are the same whatever the
    assets path is. *)
Theorem assets_path_unused_off_ios (ctx : Context_)
    (compilation : Compilation) (asset : Asset)
    (assetsPath' : option string) :
  ctx_platform ctx <> "ios" ->
  let ctx' :=
    mkContext (ctx_platform ctx) (ctx_bundleFilename ctx)
      (ctx_sourceMapFilename ctx) assetsPath' (ctx_reactNativePath ctx)
      (ctx_hermesCLIPath ctx) in
  bundleOutputPath ctx' compilation asset
    = bundleOutputPath ctx compilation asset /\
  sourcemapOutputPath ctx' compilation asset
    = sourcemapOutputPath ctx compilation asset /\
  packagerMapPath ctx' compilation asset
    = packagerMapPath ctx compilation asset.
Proof.
  intros Hplatform ctx'.
  assert (Hios : isIOS ctx = false) by by apply isIOS_false.
  assert (Hios' : isIOS ctx' = false) by by apply isIOS_false.
  assert (Hb : bundleOutputPath ctx' compilation asset
               = bundleOutputPath ctx compilation asset).
  { unfold bundleOutputPath. by rewrite Hios, Hios'. }
  split; [exact Hb|]. split.
  - unfold sourcemapOutputPath. by rewrite Hb, Hios, Hios'.
  - unfold packagerMapPath. by rewrite Hb.
Qed.

(** X3: of a configured source-map output path only the directory is used:
    two source-map output paths with the same directory give every asset the
    same three paths, so the source map is looked for under the bundle's base
    name in that directory, not at the configured path itself. *)
Theorem sourcemap_filename_only_directory (ctx : Context_)
    (compilation : Compilation) (asset : Asset) (map1 map2 : string) :
  truthy (Some map1) = true ->
  truthy (Some map2) = true ->
  path_dirname map1 = path_dirname map2 ->
  let ctx1 :=
    mkContext (ctx_platform ctx) (ctx_bundleFilename ctx) (Some map1)
      (ctx_assetsPath ctx) (ctx_reactNativePath ctx) (ctx_hermesCLIPath ctx) in
  let ctx2 :=
    mkContext (ctx_platform ctx) (ctx_bundleFilename ctx) (Some map2)
      (ctx_assetsPath ctx) (ctx_reactNativePath ctx) (ctx_hermesCLIPath ctx) in
  bundleOutputPath ctx1 compilation asset
    = bundleOutputPath ctx2 compilation asset /\
  sourcemapOutputPath ctx1 compilation asset
    = sourcemapOutputPath ctx2 compilation asset /\
  packagerMapPath ctx1 compilation asset
    = packagerMapPath ctx2 compilation asset /\
  sourcemapOutputPath ctx1 compilation asset =
    (if negb (isMainBundle asset) && isIOS ctx
     then bundleOutputPath ctx compilation asset +:+ ".map"
     else path_join (path_dirname map1)
            (path_basename (bundleOutputPath ctx compilation asset)
             +:+ ".map")).
Proof.
  intros H1 H2 Hdir ctx1 ctx2.
  destruct map1 as [|c1 m1]; [discriminate|].
  destruct map2 as [|c2 m2]; [discriminate|].
  assert (Hd : ctx_sourcemapOutputDir ctx1 = ctx_sourcemapOutputDir ctx2)
    by exact Hdir.
  split; [reflexivity|]. split; [|split].
  - unfold sourcemapOutputPath. by rewrite Hd.
  - unfold packagerMapPath. by rewrite Hd.
  - reflexivity.
Qed.

(** X4: for a secondary bundle on ios the source map is looked for beside
    the bundle, whatever the source-map output path is; the configured path
    only decides the directory of the packager map. *)
Theorem ios_chunk_map_beside_bundle (ctx : Context_)
    (compilation : Compilation) (asset : Asset)
    (sourceMapFilename' : option string) :
  name asset <> mainBundleName ->
  ctx_platform ctx = "ios" ->
  let ctx' :=
    mkContext (ctx_platform ctx) (ctx_bundleFilename ctx) sourceMapFilename'
      (ctx_assetsPath ctx) (ctx_reactNativePath ctx) (ctx_hermesCLIPath ctx) in
  sourcemapOutputPath ctx' compilation asset =
    path_join (ctx_assetsOutputDir ctx) (getPath compilation (name asset))
    +:+ ".map" /\
  packagerMapPath ctx' compilation asset =
    path_join (ctx_sourcemapOutputDir ctx')
      (path_basename
         (path_join (ctx_assetsOutputDir ctx)
            (getPath compilation (name asset)))
       +:+ ".packager.map").
Proof.
  intros Hsecondary Hios ctx'.
  assert (Hm : isMainBundle asset = false) by by apply isMainBundle_false.
  assert (Hi : isIOS ctx' = true) by by apply isIOS_true.
  assert (Hb : bundleOutputPath ctx' compilation asset =
               path_join (ctx_assetsOutputDir ctx)
                 (getPath compilation (name asset))).
  { unfold bundleOutputPath. by rewrite Hm, Hi. }
  split.
  - unfold sourcemapOutputPath. by rewrite Hb, Hm, Hi.
  - unfold packagerMapPath. by rewrite Hb.
Qed.

End PathDependencies.

(** ** Pipelines in any surroundings *)

Section Executions.
Context `{PathLib} `{Host} `{Tools}.

(** Follows every path of a computation whose operations are known, calling
    [tac] at each point where the path may stop. *)
Ltac explore H tac :=
  cbn [path bind negb] in H;
  destruct H as [[-> ->] | H];
  [ tac
  | lazymatch type of H with
    | False => destruct H
    | _ =>
        let r := fresh "r" in
        let tr := fresh "tr" in
        destruct H as (r & tr & -> & H);
        destruct r as [?|?];
        repeat match goal with u : unit |- _ => destruct u end;
        explore H tac
    end ].

Ltac unfold_pipeline H :=
  unfold processAsset, logger_debug, logger_info, logger_error, fileExists,
    await in H.

Lemma path_nil {A : Type} (p : Prog A) : path p [] p.
Proof. destruct p; by left. Qed.

(** What a pool adds to its trace under a schedule: every event belongs to
    a promise of the pool, the events of each promise are a path of that
    promise, and no log entry fails. *)
Lemma runPool_paths (s : list nat) (st : Pool) :
  exists d : list (nat * Event),
    pool_trace (runPool s st) = pool_trace st ++ d /\
    (forall i ev, (i, ev) ∈ d -> is_Some (pool_tasks st !! i)) /\
    (forall i p, pool_tasks st !! i = Some p ->
       exists q, pool_tasks (runPool s st) !! i = Some q /\
                 path p (eventsOf i d) q) /\
    Forall (fun e => isLog (snd e) = true -> failure (snd e) = None) d.
Proof.
  revert st. induction s as [|j s IH]; intros st.
  { exists []. rewrite app_nil_r. split; [done|]. split; [|split].
    - intros i ev Hin. destruct (not_elem_of_nil _ Hin).
    - intros i p Hp. exists p. split; [done|]. apply path_nil.
    - constructor. }
  rewrite runPool_cons.
  destruct (pool_tasks st !! j) as [[a|e|R op k]|] eqn:Hj.
  1, 2, 4: assert (Hsame : stepAt st j = st)
    by (unfold stepAt; by rewrite Hj);
    rewrite Hsame; apply IH.
  rewrite (stepAt_Await j op k st Hj).
  set (fs1 := fst (handle op (pool_files st))).
  set (r := snd (handle op (pool_files st))).
  destruct (IH (mkPool fs1 (<[j := k r]> (pool_tasks st))
                  (pool_trace st ++ [(j, Ev op r)])))
    as (d & Htrace & Hindex & Hpaths & Hlogs).
  simpl in *.
  exists ((j, Ev op r) :: d). split; [|split; [|split]].
  - rewrite Htrace. by rewrite <- app_assoc.
  - intros i ev Hin. apply elem_of_cons in Hin as [Heq|Hin].
    + injection Heq as -> _. by rewrite Hj.
    + apply Hindex in Hin. apply lookup_lt_is_Some in Hin.
      rewrite length_insert in Hin. by apply lookup_lt_is_Some.
  - intros i p Hp. destruct (decide (i = j)) as [->|Hij].
    + rewrite Hj in Hp. injection Hp as <-.
      destruct (Hpaths j (k r)) as (q & Hq & Hpath).
      { apply list_lookup_insert_eq. by eapply lookup_lt_Some. }
      exists q. split; [done|].
      unfold eventsOf. simpl. rewrite Nat.eqb_refl. simpl.
      right. by exists r, (eventsOf j d).
    + destruct (Hpaths i p) as (q & Hq & Hpath).
      { by rewrite list_lookup_insert_ne. }
      exists q. split; [done|].
      unfold eventsOf. simpl.
      by rewrite (proj2 (Nat.eqb_neq j i)) by done.
  - constructor; [|done]. simpl. subst r.
    destruct op; simpl; try done.
Qed.

Lemma eventsOf_elem (i : nat) (ev : Event) (d : list (nat * Event)) :
  ev ∈ eventsOf i d <-> (i, ev) ∈ d.
Proof.
  unfold eventsOf. rewrite !list_elem_of_In, in_map_iff. split.
  - intros ([j ev'] & Heq & Hin). simpl in Heq. subst ev'.
    apply filter_In in Hin as [Hin Hj]. simpl in Hj.
    apply Nat.eqb_eq in Hj. by subst j.
  - intros Hin. exists (i, ev). split; [done|].
    apply filter_In. split; [done|]. simpl. apply Nat.eqb_refl.
Qed.

Lemma path_own_events (ctx : Context_) (compilation : Compilation)
    (asset : Asset) (tr : list Event) (q : Prog unit) :
  path (processAsset ctx compilation asset) tr q ->
  Forall (ownEvent ctx compilation asset) tr.
Proof.
  intros Hpath. unfold_pipeline Hpath.
  explore Hpath
    ltac:(repeat first
            [ apply List.Forall_nil
            | apply List.Forall_cons; [simpl; tauto|] ]).
Qed.

Lemma path_at_most_seven (ctx : Context_) (compilation : Compilation)
    (asset : Asset) (tr : list Event) (q : Prog unit) :
  path (processAsset ctx compilation asset) tr q ->
  length tr <= 7 /\ (length tr = 7 -> settled q = true).
Proof.
  intros Hpath. unfold_pipeline Hpath.
  explore Hpath ltac:(simpl; split; [lia | intros; (done || lia)]).
Qed.

Lemma path_compose_shape (ctx : Context_) (compilation : Compilation)
    (asset : Asset) (tr : list Event) (q : Prog unit) :
  let bundlePath := bundleOutputPath ctx compilation asset in
  let mapPath := sourcemapOutputPath ctx compilation asset in
  let packagerPath := packagerMapPath ctx compilation asset in
  path (processAsset ctx compilation asset) tr q ->
  existsb isCompose tr = true ->
  exists (hermesAsset : HermesAsset.t) (composed : Error + unit),
    tr =
      [Ev (Log debug ("Starting hermes compilation for asset: " +:+ name asset))
          (inr tt);
       Ev (FsAccess bundlePath) (inr tt);
       Ev (FsAccess mapPath) (inr tt);
       Ev (FsRename mapPath packagerPath) (inr tt);
       Ev (TransformBundleToHermesBytecode
             (TransformArgs.mk (ctx_hermesCLIPath ctx) true bundlePath))
          (inr hermesAsset);
       Ev (Log info ("Asset transformed: " +:+ getPath compilation (name asset)))
          (inr tt);
       Ev (ComposeSourceMaps
             (ComposeArgs.mk (ctx_reactNativePath ctx) packagerPath
                (HermesAsset.sourceMap hermesAsset) mapPath))
          composed].
Proof.
  intros bundlePath mapPath packagerPath Hpath Hcompose.
  unfold_pipeline Hpath. fold bundlePath mapPath packagerPath in Hpath.
  explore Hpath
    ltac:(simpl in Hcompose;
          first [ discriminate Hcompose | do 2 eexists; reflexivity ]).
Qed.

Lemma path_transform_shape (ctx : Context_) (compilation : Compilation)
    (asset : Asset) (tr : list Event) (q : Prog unit) :
  let bundlePath := bundleOutputPath ctx compilation asset in
  let mapPath := sourcemapOutputPath ctx compilation asset in
  let packagerPath := packagerMapPath ctx compilation asset in
  path (processAsset ctx compilation asset) tr q ->
  existsb isTransform tr = true ->
  exists (mapAccess : Error + unit) (transformed : Error + HermesAsset.t)
         (rest : list Event),
    let found := match mapAccess with inr _ => true | inl _ => false end in
    tr =
      [Ev (Log debug ("Starting hermes compilation for asset: " +:+ name asset))
          (inr tt);
       Ev (FsAccess bundlePath) (inr tt);
       Ev (FsAccess mapPath) mapAccess;
       (if found
        then Ev (FsRename mapPath packagerPath) (inr tt)
        else Ev (Log info
                   "No source maps found, did you forget to specify '--sourcemap-output'?")
                (inr tt));
       Ev (TransformBundleToHermesBytecode
             (TransformArgs.mk (ctx_hermesCLIPath ctx) found bundlePath))
          transformed]
      ++ rest /\
    existsb isRename rest = false.
Proof.
  intros bundlePath mapPath packagerPath Hpath Htransform.
  unfold_pipeline Hpath. fold bundlePath mapPath packagerPath in Hpath.
  explore Hpath
    ltac:(simpl in Htransform;
          first [ discriminate Htransform
                | eexists (inr tt), _, _; split; reflexivity
                | eexists (inl _), _, _; split; reflexivity ]).
Qed.

Lemma path_rejected (ctx : Context_) (compilation : Compilation)
    (asset : Asset) (tr : list Event) (q : Prog unit) (e : Error) :
  path (processAsset ctx compilation asset) tr q ->
  q = Throw e ->
  logsSucceed tr = true ->
  exists ev : Event,
    last tr = Some ev /\ failure ev = Some e /\
    isRename ev || isTransform ev || isCompose ev = true.
Proof.
  intros Hpath Hq Hlogs. unfold_pipeline Hpath.
  explore Hpath
    ltac:(simpl in Hlogs;
          first [ discriminate Hq
                | discriminate Hlogs
                | injection Hq as ->; eexists; repeat split; reflexivity ]).
Qed.

Lemma logsSucceed_eventsOf (i : nat) (d : list (nat * Event)) :
  Forall (fun e => isLog (snd e) = true -> failure (snd e) = None) d ->
  logsSucceed (eventsOf i d) = true.
Proof.
  intros Hlogs. unfold logsSucceed. apply forallb_forall. intros ev Hin.
  apply list_elem_of_In, eventsOf_elem in Hin.
  rewrite Forall_forall in Hlogs. specialize (Hlogs _ Hin). simpl in Hlogs.
  destruct ev as [R op [e|v]]; [|by rewrite andb_false_r].
  destruct op; simpl in *; try done. by specialize (Hlogs eq_refl).
Qed.

(** The events of one pipeline of a pool under a schedule are a path of the
    pipeline. *)
Lemma pool_pipeline_path (ctx : Context_) (compilation : Compilation)
    (asset : Asset) (fs : Files) (tasks : list (Prog unit)) (i : nat)
    (schedule : list nat) :
  tasks !! i = Some (processAsset ctx compilation asset) ->
  let st := runPool schedule (mkPool fs tasks []) in
  exists q : Prog unit,
    pool_tasks st !! i = Some q /\
    path (processAsset ctx compilation asset) (eventsOf i (pool_trace st)) q /\
    logsSucceed (eventsOf i (pool_trace st)) = true.
Proof.
  intros Hi st.
  destruct (runPool_paths schedule (mkPool fs tasks []))
    as (d & Htrace & _ & Hpaths & Hlogs).
  simpl in Htrace. destruct (Hpaths i _ Hi) as (q & Hq & Hpath).
  exists q. unfold st. rewrite Htrace.
  split; [done|]. split; [done|]. by apply logsSucceed_eventsOf.
Qed.

(** X5: under every schedule and whatever the other promises of the pool
    do, the operations of an asset's pipeline stay on that asset's resolved
    paths: it checks only its bundle and its source map, renames only its
    source map to its packager map, transforms only its bundle, with the
    context's Hermes binary, and composes only from its packager map to its
    source-map path. *)
Theorem pipeline_operations_confined (ctx : Context_)
    (compilation : Compilation) (asset : Asset) (fs : Files)
    (tasks : list (Prog unit)) (i : nat) (schedule : list nat) :
  tasks !! i = Some (processAsset ctx compilation asset) ->
  Forall (ownEvent ctx compilation asset)
    (eventsOf i (pool_trace (runPool schedule (mkPool fs tasks [])))).
Proof.
  intros Hi.
  destruct (pool_pipeline_path ctx compilation asset fs tasks i schedule Hi)
    as (q & _ & Hpath & _).
  by eapply path_own_events.
Qed.

(** X6: under every schedule, a pipeline that reaches its compose step has
    performed exactly seven operations: both existence checks, the rename
    and the transform with source maps have succeeded before it, and the
    compose step receives the packager-map path, the compiler map the
    transform returned and the source-map path as output. *)
Theorem compose_only_after_rename_and_transform (ctx : Context_)
    (compilation : Compilation) (asset : Asset) (fs : Files)
    (tasks : list (Prog unit)) (i : nat) (schedule : list nat) :
  let bundlePath := bundleOutputPath ctx compilation asset in
  let mapPath := sourcemapOutputPath ctx compilation asset in
  let packagerPath := packagerMapPath ctx compilation asset in
  let events :=
    eventsOf i (pool_trace (runPool schedule (mkPool fs tasks []))) in
  tasks !! i = Some (processAsset ctx compilation asset) ->
  existsb isCompose events = true ->
  exists (hermesAsset : HermesAsset.t) (composed : Error + unit),
    events =
      [Ev (Log debug ("Starting hermes compilation for asset: " +:+ name asset))
          (inr tt);
       Ev (FsAccess bundlePath) (inr tt);
       Ev (FsAccess mapPath) (inr tt);
       Ev (FsRename mapPath packagerPath) (inr tt);
       Ev (TransformBundleToHermesBytecode
             (TransformArgs.mk (ctx_hermesCLIPath ctx) true bundlePath))
          (inr hermesAsset);
       Ev (Log info ("Asset transformed: " +:+ getPath compilation (name asset)))
          (inr tt);
       Ev (ComposeSourceMaps
             (ComposeArgs.mk (ctx_reactNativePath ctx) packagerPath
                (HermesAsset.sourceMap hermesAsset) mapPath))
          composed].
Proof.
  intros bundlePath mapPath packagerPath events Hi Hcompose.
  destruct (pool_pipeline_path ctx compilation asset fs tasks i schedule Hi)
    as (q & _ & Hpath & _).
  by eapply path_compose_shape.
Qed.

(** X7: under every schedule, a pipeline that reaches its transform step has
    found its bundle, and asks the compiler for a source map exactly when it
    has found the source map, in which case it has renamed it successfully
    before; it renames nothing after the transform, so a rename that fails
    is never followed by a transform. *)
Theorem transform_only_after_map_check (ctx : Context_)
    (compilation : Compilation) (asset : Asset) (fs : Files)
    (tasks : list (Prog unit)) (i : nat) (schedule : list nat) :
  let bundlePath := bundleOutputPath ctx compilation asset in
  let mapPath := sourcemapOutputPath ctx compilation asset in
  let packagerPath := packagerMapPath ctx compilation asset in
  let events :=
    eventsOf i (pool_trace (runPool schedule (mkPool fs tasks []))) in
  tasks !! i = Some (processAsset ctx compilation asset) ->
  existsb isTransform events = true ->
  exists (mapAccess : Error + unit) (transformed : Error + HermesAsset.t)
         (rest : list Event),
    let found := match mapAccess with inr _ => true | inl _ => false end in
    events =
      [Ev (Log debug ("Starting hermes compilation for asset: " +:+ name asset))
          (inr tt);
       Ev (FsAccess bundlePath) (inr tt);
       Ev (FsAccess mapPath) mapAccess;
       (if found
        then Ev (FsRename mapPath packagerPath) (inr tt)
        else Ev (Log info
                   "No source maps found, did you forget to specify '--sourcemap-output'?")
                (inr tt));
       Ev (TransformBundleToHermesBytecode
             (TransformArgs.mk (ctx_hermesCLIPath ctx) found bundlePath))
          transformed]
      ++ rest /\
    existsb isRename rest = false.
Proof.
  intros bundlePath mapPath packagerPath events Hi Htransform.
  destruct (pool_pipeline_path ctx compilation asset fs tasks i schedule Hi)
    as (q & _ & Hpath & _).
  by eapply path_transform_shape.
Qed.

(** X8: a pipeline is rejected only by its rename, its transform or its
    compose step: under every schedule, when the promise of a pipeline is
    rejected, the last operation it performed is one of these three, it
    failed, and the promise carries that operation's error unchanged.  A
    missing bundle or a missing source map never rejects it. *)
Theorem rejection_carries_failed_step (ctx : Context_)
    (compilation : Compilation) (asset : Asset) (fs : Files)
    (tasks : list (Prog unit)) (i : nat) (schedule : list nat) (e : Error) :
  let st := runPool schedule (mkPool fs tasks []) in
  tasks !! i = Some (processAsset ctx compilation asset) ->
  pool_tasks st !! i = Some (Throw e) ->
  exists ev : Event,
    last (eventsOf i (pool_trace st)) = Some ev /\
    failure ev = Some e /\
    isRename ev || isTransform ev || isCompose ev = true.
Proof.
  intros st Hi Hrejected.
  destruct (pool_pipeline_path ctx compilation asset fs tasks i schedule Hi)
    as (q & Hq & Hpath & Hlogs).
  fold st in Hq. rewrite Hrejected in Hq. injection Hq as <-.
  by eapply path_rejected.
Qed.

(** X9: under every schedule a pipeline performs at most seven operations,
    and one that has performed seven has settled. *)
Theorem pipeline_at_most_seven_operations (ctx : Context_)
    (compilation : Compilation) (asset : Asset) (fs : Files)
    (tasks : list (Prog unit)) (i : nat) (schedule : list nat) :
  let st := runPool schedule (mkPool fs tasks []) in
  tasks !! i = Some (processAsset ctx compilation asset) ->
  length (eventsOf i (pool_trace st)) <= 7 /\
  (length (eventsOf i (pool_trace st)) = 7 ->
   exists q, pool_tasks st !! i = Some q /\ settled q = true).
Proof.
  intros st Hi.
  destruct (pool_pipeline_path ctx compilation asset fs tasks i schedule Hi)
    as (q & Hq & Hpath & _).
  destruct (path_at_most_seven _ _ _ _ _ Hpath) as [Hle Hsettled].
  split; [done|]. intros Hseven. exists q. split; [done|]. by apply Hsettled.
Qed.

Lemma path_fulfilled (ctx : Context_) (compilation : Compilation)
    (asset : Asset) (tr : list Event) (q : Prog unit) :
  let bundlePath := bundleOutputPath ctx compilation asset in
  let mapPath := sourcemapOutputPath ctx compilation asset in
  let packagerPath := packagerMapPath ctx compilation asset in
  path (processAsset ctx compilation asset) tr q ->
  q = Ret tt ->
  logsSucceed tr = true ->
  (exists missing : Error,
     tr =
       [Ev (Log debug ("Starting hermes compilation for asset: " +:+ name asset))
           (inr tt);
        Ev (FsAccess bundlePath) (inl missing);
        Ev (Log error ("Bundle does not exist: " +:+ bundlePath)) (inr tt)]) \/
  (exists (mapAccess : Error + unit) (hermesAsset : HermesAsset.t),
     let found := match mapAccess with inr _ => true | inl _ => false end in
     tr =
       [Ev (Log debug ("Starting hermes compilation for asset: " +:+ name asset))
           (inr tt);
        Ev (FsAccess bundlePath) (inr tt);
        Ev (FsAccess mapPath) mapAccess;
        (if found
         then Ev (FsRename mapPath packagerPath) (inr tt)
         else Ev (Log info
                    "No source maps found, did you forget to specify '--sourcemap-output'?")
                 (inr tt));
        Ev (TransformBundleToHermesBytecode
              (TransformArgs.mk (ctx_hermesCLIPath ctx) found bundlePath))
           (inr hermesAsset);
        Ev (Log info ("Asset transformed: " +:+ getPath compilation (name asset)))
           (inr tt)]
       ++ (if found
           then [Ev (ComposeSourceMaps
                       (ComposeArgs.mk (ctx_reactNativePath ctx) packagerPath
                          (HermesAsset.sourceMap hermesAsset) mapPath))
                    (inr tt)]
           else [])).
Proof.
  intros bundlePath mapPath packagerPath Hpath Hq Hlogs.
  unfold_pipeline Hpath. fold bundlePath mapPath packagerPath in Hpath.
  explore Hpath
    ltac:(simpl in Hlogs;
          first [ discriminate Hq
                | discriminate Hlogs
                | left; eexists; reflexivity
                | right; eexists (inr tt), _; reflexivity
                | right; eexists (inl _), _; reflexivity ]).
Qed.

(** X14: a pipeline is fulfilled in two ways only.  Under every schedule,
    when the promise of a pipeline is fulfilled, either its bundle was
    missing and it has only logged that, or its bundle was transformed
    successfully and, when its source map was found, the rename and the
    compose step have succeeded as well: success is never reported for a
    bundle that was found and not transformed. *)
Theorem fulfilled_pipeline_shapes (ctx : Context_)
    (compilation : Compilation) (asset : Asset) (fs : Files)
    (tasks : list (Prog unit)) (i : nat) (schedule : list nat) :
  let bundlePath := bundleOutputPath ctx compilation asset in
  let mapPath := sourcemapOutputPath ctx compilation asset in
  let packagerPath := packagerMapPath ctx compilation asset in
  let st := runPool schedule (mkPool fs tasks []) in
  let events := eventsOf i (pool_trace st) in
  tasks !! i = Some (processAsset ctx compilation asset) ->
  pool_tasks st !! i = Some (Ret tt) ->
  (exists missing : Error,
     events =
       [Ev (Log debug ("Starting hermes compilation for asset: " +:+ name asset))
           (inr tt);
        Ev (FsAccess bundlePath) (inl missing);
        Ev (Log error ("Bundle does not exist: " +:+ bundlePath)) (inr tt)]) \/
  (exists (mapAccess : Error + unit) (hermesAsset : HermesAsset.t),
     let found := match mapAccess with inr _ => true | inl _ => false end in
     events =
       [Ev (Log debug ("Starting hermes compilation for asset: " +:+ name asset))
           (inr tt);
        Ev (FsAccess bundlePath) (inr tt);
        Ev (FsAccess mapPath) mapAccess;
        (if found
         then Ev (FsRename mapPath packagerPath) (inr tt)
         else Ev (Log info
                    "No source maps found, did you forget to specify '--sourcemap-output'?")
                 (inr tt));
        Ev (TransformBundleToHermesBytecode
              (TransformArgs.mk (ctx_hermesCLIPath ctx) found bundlePath))
           (inr hermesAsset);
        Ev (Log info ("Asset transformed: " +:+ getPath compilation (name asset)))
           (inr tt)]
       ++ (if found
           then [Ev (ComposeSourceMaps
                       (ComposeArgs.mk (ctx_reactNativePath ctx) packagerPath
                          (HermesAsset.sourceMap hermesAsset) mapPath))
                    (inr tt)]
           else [])).
Proof.
  intros bundlePath mapPath packagerPath st events Hi Hfulfilled.
  destruct (pool_pipeline_path ctx compilation asset fs tasks i schedule Hi)
    as (q & Hq & Hpath & Hlogs).
  fold st in Hq. rewrite Hfulfilled in Hq. injection Hq as <-.
  by eapply path_fulfilled.
Qed.

End Executions.

(** ** Builds *)

Section BuildProperties.
Context `{PathLib} `{Host} `{Tools}.

Lemma build_enabled (config : ChunksToHermesBytecodePluginConfig)
    (bundleFilename' : string) (schedule : list nat)
    (compilation : Compilation) (fs : Files) :
  enabled config = true ->
  bundleFilename config = Some bundleFilename' ->
  truthy (Some bundleFilename') = true ->
  webpackBuild schedule config compilation fs =
    mkBuild []
      (inr (runPool schedule
              (mkPool fs
                 (afterEmit config (applyContext config bundleFilename')
                    compilation) []))).
Proof.
  intros Hon Hbundle Htruthy.
  destruct bundleFilename' as [|c b]; [discriminate|].
  unfold webpackBuild, apply. rewrite Hon, Hbundle. simpl.
  by rewrite app_nil_r.
Qed.

Lemma build_events (config : ChunksToHermesBytecodePluginConfig)
    (ctx : Context_) (schedule : list nat) (compilation : Compilation)
    (fs : Files) (i : nat) (ev : Event) :
  (i, ev) ∈ pool_trace
              (runPool schedule
                 (mkPool fs (afterEmit config ctx compilation) [])) ->
  exists asset : Asset,
    asset ∈ getAssets compilation /\
    shouldUseHermesByteCode config (name asset) = true /\
    ownEvent ctx compilation asset ev.
Proof.
  intros Hin.
  destruct (runPool_paths schedule
              (mkPool fs (afterEmit config ctx compilation) []))
    as (d & Htrace & Hindex & Hpaths & _).
  simpl in *. rewrite Htrace in Hin.
  destruct (Hindex i ev Hin) as [p Hp].
  destruct (Hpaths i p Hp) as (q & _ & Hpath).
  assert (Hmember : p ∈ afterEmit config ctx compilation)
    by (apply list_elem_of_lookup; eauto).
  apply afterEmit_tasks in Hmember as (asset & Hasset & Hmatch & ->).
  exists asset. split; [done|]. split; [done|].
  pose proof (path_own_events _ _ _ _ _ Hpath) as Hown.
  rewrite Forall_forall in Hown. by apply Hown, eventsOf_elem.
Qed.

(** X10: with the plugin enabled and a bundle output path configured,
    [apply] logs nothing and throws nothing, and under every schedule every
    operation of the build is an operation of an emitted asset that matches
    the plugin's rules, on that asset's resolved paths: no file is checked,
    renamed, transformed or composed for an asset that does not match. *)
Theorem build_operations_of_matching_assets
    (config : ChunksToHermesBytecodePluginConfig) (bundleFilename' : string)
    (schedule : list nat) (compilation : Compilation) (fs : Files) :
  enabled config = true ->
  bundleFilename config = Some bundleFilename' ->
  truthy (Some bundleFilename') = true ->
  exists st : Pool,
    webpackBuild schedule config compilation fs = mkBuild [] (inr st) /\
    forall (i : nat) (ev : Event),
      (i, ev) ∈ pool_trace st ->
      exists asset : Asset,
        asset ∈ getAssets compilation /\
        shouldUseHermesByteCode config (name asset) = true /\
        ownEvent (applyContext config bundleFilename') compilation asset ev.
Proof.
  intros Hon Hbundle Htruthy. eexists. split.
  - by apply build_enabled.
  - intros i ev Hin. by eapply build_events.
Qed.

(** X11: in every build, each transform runs the configured Hermes binary
    when one is configured and not empty, and otherwise the binary looked up
    under [reactNativePath]; each compose receives [reactNativePath] as
    configured, the default [./node_modules/react-native] standing in only
    for an undefined one (an empty one is passed on as it is). *)
Theorem configured_tool_paths
    (config : ChunksToHermesBytecodePluginConfig) (bundleFilename' : string)
    (schedule : list nat) (compilation : Compilation) (fs : Files) :
  enabled config = true ->
  bundleFilename config = Some bundleFilename' ->
  truthy (Some bundleFilename') = true ->
  let reactNativePath' :=
    match reactNativePath config with
    | Some p => p
    | None => "./node_modules/react-native"
    end in
  exists st : Pool,
    build_result (webpackBuild schedule config compilation fs) = inr st /\
    (forall i args r,
       (i, Ev (TransformBundleToHermesBytecode args) r) ∈ pool_trace st ->
       TransformArgs.hermesCLIPath args =
         match hermesCLIPath config with
         | Some (String c s) => String c s
         | _ => getHermesCLIPath reactNativePath'
         end) /\
    (forall i args r,
       (i, Ev (ComposeSourceMaps args) r) ∈ pool_trace st ->
       ComposeArgs.reactNativePath args = reactNativePath').
Proof.
  intros Hon Hbundle Htruthy reactNativePath'. eexists. split; [|split].
  - by rewrite (build_enabled config bundleFilename').
  - intros i args r Hin.
    apply build_events in Hin as (asset & _ & _ & Hown).
    simpl in Hown. by destruct Hown as [_ ->].
  - intros i args r Hin.
    apply build_events in Hin as (asset & _ & _ & Hown).
    simpl in Hown. by destruct Hown as (_ & _ & ->).
Qed.

(** X12: when no emitted asset matches the plugin's rules (in particular
    when no asset was emitted), an enabled build does nothing: under every
    schedule it logs nothing, performs no operation, fails with no error and
    leaves the files as they are. *)
Theorem no_matching_asset_nothing_done
    (config : ChunksToHermesBytecodePluginConfig) (bundleFilename' : string)
    (schedule : list nat) (compilation : Compilation) (fs : Files) :
  enabled config = true ->
  bundleFilename config = Some bundleFilename' ->
  truthy (Some bundleFilename') = true ->
  (forall asset : Asset,
     asset ∈ getAssets compilation ->
     shouldUseHermesByteCode config (name asset) = false) ->
  webpackBuild schedule config compilation fs =
    mkBuild [] (inr (mkPool fs [] [])).
Proof.
  intros Hon Hbundle Htruthy Hnone.
  rewrite (build_enabled config bundleFilename') by done.
  unfold afterEmit.
  assert (Hfilter :
    List.filter (fun asset => shouldUseHermesByteCode config (name asset))
      (getAssets compilation) = []).
  { induction (getAssets compilation) as [|a l IH]; [done|].
    simpl. rewrite (Hnone a) by (by left).
    apply IH. intros asset Hin. apply Hnone. by right. }
  rewrite Hfilter. simpl. by rewrite runPool_no_tasks.
Qed.

(** X13: [fileExists] never rejects and changes no file: its promise is
    fulfilled with [true] when the path has a file and with [false] when
    [fs.access] fails, the failure being swallowed. *)
Theorem fileExists_never_rejects (path : string) (fs : Files) :
  run (fileExists path) fs =
    (fs,
     [Ev (FsAccess path)
         (if bool_decide (is_Some (fs !! path))
          then inr tt else inl (ENOENT path))],
     Fulfilled (bool_decide (is_Some (fs !! path)))).
Proof.
  unfold fileExists. simpl.
  destruct (fs !! path) as [content|] eqn:Hpath.
  - by rewrite bool_decide_eq_true_2 by eauto.
  - by rewrite bool_decide_eq_false_2 by (by intros [? ?]).
Qed.

End BuildProperties.

(** ** The further properties at work *)

Section FurtherWitnesses.
#[local] Existing Instances Example.posix Example.host Example.tools.

Lemma main_bundle_paths_fixed_witness :
  let ctx' :=
    mkContext "android" "/out/main.jsbundle" None None
      "./node_modules/react-native"
      "./node_modules/react-native/sdks/hermesc/hermesc" in
  name Example.index = mainBundleName /\
  bundleOutputPath ctx' Example.compilationMainOnly Example.index
    = "/out/main.jsbundle" /\
  sourcemapOutputPath ctx' Example.compilationMainOnly Example.index
    = "/out/main.jsbundle.map" /\
  packagerMapPath ctx' Example.compilationMainOnly Example.index
    = "/out/main.jsbundle.packager.map".
Proof.
  exact (conj eq_refl
           (main_bundle_paths_fixed (Example.ctx "ios") Example.compilation
              Example.index "android" None Example.compilationMainOnly
              eq_refl)).
Defined.

Lemma assets_path_unused_off_ios_witness :
  let ctx' :=
    mkContext "android" "/out/main.jsbundle" None None
      "./node_modules/react-native"
      "./node_modules/react-native/sdks/hermesc/hermesc" in
  ctx_platform (Example.ctx "android") <> "ios" /\
  bundleOutputPath ctx' Example.compilation Example.chunk1
    = bundleOutputPath (Example.ctx "android") Example.compilation
        Example.chunk1 /\
  sourcemapOutputPath ctx' Example.compilation Example.chunk1
    = sourcemapOutputPath (Example.ctx "android") Example.compilation
        Example.chunk1 /\
  packagerMapPath ctx' Example.compilation Example.chunk1
    = packagerMapPath (Example.ctx "android") Example.compilation
        Example.chunk1.
Proof.
  assert (Hplatform : ctx_platform (Example.ctx "android") <> "ios")
    by discriminate.
  exact (conj Hplatform
           (assets_path_unused_off_ios (Example.ctx "android")
              Example.compilation Example.chunk1 None Hplatform)).
Defined.

Lemma sourcemap_filename_only_directory_witness :
  let ctx1 :=
    mkContext "android" "/out/main.jsbundle" (Some "/maps/first.map")
      (Some "/out/assets") "./node_modules/react-native"
      "./node_modules/react-native/sdks/hermesc/hermesc" in
  let ctx2 :=
    mkContext "android" "/out/main.jsbundle" (Some "/maps/second.map")
      (Some "/out/assets") "./node_modules/react-native"
      "./node_modules/react-native/sdks/hermesc/hermesc" in
  path_dirname "/maps/first.map" = path_dirname "/maps/second.map" /\
  sourcemapOutputPath ctx1 Example.compilation Example.index
    = sourcemapOutputPath ctx2 Example.compilation Example.index /\
  sourcemapOutputPath ctx1 Example.compilation Example.index
    = "/maps/main.jsbundle.map".
Proof.
  assert (Hdir : path_dirname "/maps/first.map"
                 = path_dirname "/maps/second.map") by (vm_compute; reflexivity).
  destruct (sourcemap_filename_only_directory (Example.ctx "android")
              Example.compilation Example.index "/maps/first.map"
              "/maps/second.map" eq_refl eq_refl Hdir)
    as (_ & Hmap & _ & Hform).
  exact (conj Hdir (conj Hmap Hform)).
Defined.

Lemma ios_chunk_map_beside_bundle_witness :
  let ctx' :=
    mkContext "ios" "/out/main.jsbundle" (Some "/maps/first.map")
      (Some "/out/assets") "./node_modules/react-native"
      "./node_modules/react-native/sdks/hermesc/hermesc" in
  name Example.chunk1 <> mainBundleName /\
  ctx_platform (Example.ctx "ios") = "ios" /\
  sourcemapOutputPath ctx' Example.compilation Example.chunk1
    = "/out/assets/chunk1.bundle.map" /\
  packagerMapPath ctx' Example.compilation Example.chunk1
    = "/maps/chunk1.bundle.packager.map".
Proof.
  assert (Hname : name Example.chunk1 <> mainBundleName) by discriminate.
  exact (conj Hname (conj eq_refl
           (ios_chunk_map_beside_bundle (Example.ctx "ios")
              Example.compilation Example.chunk1 (Some "/maps/first.map")
              Hname eq_refl))).
Defined.

Lemma pipeline_operations_confined_witness :
  let tasks :=
    afterEmit (Example.config "ios") (Example.ctx "ios") Example.compilation in
  tasks !! 1 =
    Some (processAsset (Example.ctx "ios") Example.compilation Example.chunk1)
  /\
  Forall (ownEvent (Example.ctx "ios") Example.compilation Example.chunk1)
    (eventsOf 1
       (pool_trace
          (runPool [0; 1; 1; 0; 1; 1; 1; 0; 1; 1]
             (mkPool Example.disk tasks [])))).
Proof.
  exact (conj eq_refl
           (pipeline_operations_confined (Example.ctx "ios")
              Example.compilation Example.chunk1 Example.disk
              (afterEmit (Example.config "ios") (Example.ctx "ios")
                 Example.compilation)
              1 [0; 1; 1; 0; 1; 1; 1; 0; 1; 1] eq_refl)).
Defined.

Lemma compose_only_after_rename_and_transform_witness :
  let tasks :=
    afterEmit (Example.config "ios") (Example.ctx "ios") Example.compilation in
  let events :=
    eventsOf 1
      (pool_trace
         (runPool [0; 1; 1; 0; 1; 1; 1; 0; 1; 1; 1]
            (mkPool Example.disk tasks []))) in
  tasks !! 1 =
    Some (processAsset (Example.ctx "ios") Example.compilation Example.chunk1)
  /\ existsb isCompose events = true
  /\ length events = 7.
Proof.
  intros tasks events.
  assert (Hcompose : existsb isCompose events = true)
    by (vm_compute; reflexivity).
  destruct (compose_only_after_rename_and_transform (Example.ctx "ios")
              Example.compilation Example.chunk1 Example.disk tasks 1
              [0; 1; 1; 0; 1; 1; 1; 0; 1; 1; 1] eq_refl Hcompose)
    as (hermesAsset & composed & Hevents).
  refine (conj eq_refl (conj Hcompose _)).
  fold tasks in Hevents. fold events in Hevents. by rewrite Hevents.
Defined.

Lemma transform_only_after_map_check_witness :
  let tasks :=
    afterEmit (Example.config "ios") (Example.ctx "ios") Example.compilation in
  let events :=
    eventsOf 0
      (pool_trace
         (runPool [0; 1; 0; 0; 0; 0]
            (mkPool Example.diskMainOnly tasks []))) in
  tasks !! 0 =
    Some (processAsset (Example.ctx "ios") Example.compilation Example.index)
  /\ existsb isTransform events = true
  /\ 5 <= length events.
Proof.
  intros tasks events.
  assert (Htransform : existsb isTransform events = true)
    by (vm_compute; reflexivity).
  destruct (transform_only_after_map_check (Example.ctx "ios")
              Example.compilation Example.index Example.diskMainOnly tasks 0
              [0; 1; 0; 0; 0; 0] eq_refl Htransform)
    as (mapAccess & transformed & rest & Hevents & _).
  refine (conj eq_refl (conj Htransform _)).
  fold tasks in Hevents. fold events in Hevents. rewrite Hevents.
  simpl. lia.
Defined.

Lemma rejection_carries_failed_step_witness :
  let st :=
    runPool [0; 1; 0; 1; 0; 1; 0; 1]
      (mkPool Example.disk Example.twiceChunk1 []) in
  Example.twiceChunk1 !! 1 =
    Some (processAsset (Example.ctx "ios") Example.compilation Example.chunk1)
  /\ pool_tasks st !! 1
       = Some (Throw (ENOENT "/out/assets/chunk1.bundle.map"))
  /\ exists ev : Event,
       last (eventsOf 1 (pool_trace st)) = Some ev /\
       failure ev = Some (ENOENT "/out/assets/chunk1.bundle.map") /\
       isRename ev || isTransform ev || isCompose ev = true.
Proof.
  intros st.
  assert (Hrejected :
    pool_tasks st !! 1
      = Some (Throw (ENOENT "/out/assets/chunk1.bundle.map")))
    by (vm_compute; reflexivity).
  exact (conj eq_refl (conj Hrejected
           (rejection_carries_failed_step (Example.ctx "ios")
              Example.compilation Example.chunk1 Example.disk
              Example.twiceChunk1 1 [0; 1; 0; 1; 0; 1; 0; 1]
              (ENOENT "/out/assets/chunk1.bundle.map") eq_refl Hrejected))).
Defined.

Lemma pipeline_at_most_seven_operations_witness :
  let tasks :=
    afterEmit (Example.config "ios") (Example.ctx "ios") Example.compilation in
  let st :=
    runPool [1; 1; 1; 1; 1; 1; 1; 1; 1; 0; 1] (mkPool Example.disk tasks []) in
  tasks !! 1 =
    Some (processAsset (Example.ctx "ios") Example.compilation Example.chunk1)
  /\ length (eventsOf 1 (pool_trace st)) <= 7.
Proof.
  exact (conj eq_refl
           (proj1 (pipeline_at_most_seven_operations (Example.ctx "ios")
                     Example.compilation Example.chunk1 Example.disk
                     (afterEmit (Example.config "ios") (Example.ctx "ios")
                        Example.compilation)
                     1 [1; 1; 1; 1; 1; 1; 1; 1; 1; 0; 1] eq_refl))).
Defined.

Lemma fulfilled_pipeline_shapes_witness :
  let tasks :=
    afterEmit (Example.config "android") (Example.ctx "android")
      Example.compilation in
  let st := runPool [1; 0; 1; 1] (mkPool Example.disk tasks []) in
  tasks !! 1 =
    Some (processAsset (Example.ctx "android") Example.compilation
            Example.chunk1)
  /\ pool_tasks st !! 1 = Some (Ret tt)
  /\ (length (eventsOf 1 (pool_trace st)) = 3 \/
      6 <= length (eventsOf 1 (pool_trace st))).
Proof.
  intros tasks st.
  assert (Hfulfilled : pool_tasks st !! 1 = Some (Ret tt))
    by (vm_compute; reflexivity).
  refine (conj eq_refl (conj Hfulfilled _)).
  destruct (fulfilled_pipeline_shapes (Example.ctx "android")
              Example.compilation Example.chunk1 Example.disk tasks 1
              [1; 0; 1; 1] eq_refl Hfulfilled)
    as [(missing & Hevents) | (mapAccess & hermesAsset & Hevents)];
    fold tasks in Hevents; fold st in Hevents; rewrite Hevents.
  - by left.
  - right. rewrite length_app. simpl. lia.
Defined.

Lemma build_operations_of_matching_assets_witness :
  enabled Example.configChunksOnly = true /\
  bundleFilename Example.configChunksOnly = Some "/out/main.jsbundle" /\
  truthy (Some "/out/main.jsbundle") = true /\
  exists st : Pool,
    webpackBuild [0; 0; 1; 0] Example.configChunksOnly Example.compilation
      Example.disk = mkBuild [] (inr st) /\
    forall (i : nat) (ev : Event),
      (i, ev) ∈ pool_trace st ->
      exists asset : Asset,
        asset ∈ getAssets Example.compilation /\
        shouldUseHermesByteCode Example.configChunksOnly (name asset) = true /\
        ownEvent (applyContext Example.configChunksOnly "/out/main.jsbundle")
          Example.compilation asset ev.
Proof.
  exact (conj eq_refl (conj eq_refl (conj eq_refl
           (build_operations_of_matching_assets Example.configChunksOnly
              "/out/main.jsbundle" [0; 0; 1; 0] Example.compilation
              Example.disk eq_refl eq_refl eq_refl)))).
Defined.

Lemma configured_tool_paths_witness :
  enabled Example.configChunksOnly = true /\
  bundleFilename Example.configChunksOnly = Some "/out/main.jsbundle" /\
  truthy (Some "/out/main.jsbundle") = true /\
  exists st : Pool,
    build_result
      (webpackBuild [0; 0; 0; 0; 0; 0; 0] Example.configChunksOnly
         Example.compilation Example.disk) = inr st /\
    (forall i args r,
       (i, Ev (TransformBundleToHermesBytecode args) r) ∈ pool_trace st ->
       TransformArgs.hermesCLIPath args = "/opt/hermes/hermesc") /\
    (forall i args r,
       (i, Ev (ComposeSourceMaps args) r) ∈ pool_trace st ->
       ComposeArgs.reactNativePath args = "./node_modules/react-native").
Proof.
  exact (conj eq_refl (conj eq_refl (conj eq_refl
           (configured_tool_paths Example.configChunksOnly
              "/out/main.jsbundle" [0; 0; 0; 0; 0; 0; 0] Example.compilation
              Example.disk eq_refl eq_refl eq_refl)))).
Defined.

Lemma no_matching_asset_nothing_done_witness :
  enabled Example.configChunksOnly = true /\
  bundleFilename Example.configChunksOnly = Some "/out/main.jsbundle" /\
  truthy (Some "/out/main.jsbundle") = true /\
  (forall asset : Asset,
     asset ∈ getAssets Example.compilationMainOnly ->
     shouldUseHermesByteCode Example.configChunksOnly (name asset) = false) /\
  webpackBuild [0; 1; 0] Example.configChunksOnly Example.compilationMainOnly
    Example.disk = mkBuild [] (inr (mkPool Example.disk [] [])).
Proof.
  assert (Hnone : forall asset : Asset,
    asset ∈ getAssets Example.compilationMainOnly ->
    shouldUseHermesByteCode Example.configChunksOnly (name asset) = false).
  { intros asset Hin. apply list_elem_of_singleton in Hin. by subst asset. }
  exact (conj eq_refl (conj eq_refl (conj eq_refl (conj Hnone
           (no_matching_asset_nothing_done Example.configChunksOnly
              "/out/main.jsbundle" [0; 1; 0] Example.compilationMainOnly
              Example.disk eq_refl eq_refl eq_refl Hnone))))).
Defined.

End FurtherWitnesses.
